(** * ConnectionController (plugin-connection-preconfigured)

    A shallow embedding of
    [webapp/packages/plugin-connection-preconfigured/src/ConnectionDialog/ConnectionController.ts]
    and the properties of the controller that the design document states.

    The controller is a MobX view-model: a handful of observable fields,
    rewritten by its action methods.  Its methods are embedded as programs
    of a state-and-exception monad over the controller's fields and the
    collaborators it talks to.  An [async] method is cut at each [await]:
    the part up to the await is one program, the part that runs when the
    awaited promise settles is another, taking the settlement as its
    argument.  Whatever the user does while a call is in flight is then
    an ordinary program run between the two halves. *)

From stdpp Require Import gmap strings list.

Open Scope string_scope.
Open Scope list_scope.

(** ** Data of the collaborators *)

Module ConnectionStep.
Inductive t : Set := DBSource | Connection.
End ConnectionStep.

(** A preconfigured data source, as listed by [TemplateDataSourceListResource].
    The controller reads [id] and [driverId] only. *)
Module DBSource.
Record t : Set := Build { id : string; driverId : string }.
End DBSource.

(** Modelled from the spec: the driver descriptor of [DBDriverResource] is
    declared in core-app; the fields used are the [defaultAuthModel] id and
    the [anonymousAccess] flag. *)
Module DBDriver.
Record t : Set := Build { defaultAuthModel : string; anonymousAccess : bool }.
End DBDriver.

(** Modelled from the spec: the auth-model descriptor of core-sdk; the
    controller only stores it and tests it for presence. *)
Record DatabaseAuthModel : Set := { authModelName : string }.

(** Modelled from the spec: what [openConnectionAsync] resolves to, an
    object with at least a [name]. *)
Record Connection : Set := { name : string }.

(** Modelled from the spec: the structured error of core-sdk, with its
    human-readable [errorText] and the answer of its [hasDetails()]
    method. *)
Module GQLError.
Record t : Set := Build { errorText : string; hasDetails : bool }.
End GQLError.

(** A thrown value: an instance of [GQLError], or any other [Error]. *)
Inductive Exception : Set :=
| GQL (e : GQLError.t)
| Other (message : string).

(** [exception instanceof GQLError] *)
Definition instanceof_GQLError (exception : Exception) : option GQLError.t :=
  match exception with
  | GQL e => Some e
  | Other _ => None
  end.

(** A value held by a field of the [ConnectionConfig] object. *)
Inductive JSValue : Type :=
| undefined
| str (s : string)
| obj (entries : gmap string string).

(** [ConnectionConfig] is an object whose fields are all optional; it is
    kept as the map of its own properties. *)
Abbreviation ConnectionConfig := (gmap string JSValue).

(** Reading a property: [o.k], [undefined] when the object has no such
    property. *)
Definition prop (o : ConnectionConfig) (k : string) : JSValue :=
  default undefined (o !! k).

(** Optional chaining: [x?.f]. *)
Definition chain {A : Type} (x : option A) (f : A → string) : JSValue :=
  match x with
  | Some a => str (f a)
  | None => undefined
  end.

(** The close callback handed to [init]; calling it is recorded by name. *)
Definition Callback : Set := nat.

(** ** Calls made on the collaborators, in the order they are made *)

Inductive Call : Type :=
| TemplateDataSourceList_loadAll
| DBDriver_loadAll
| DatabaseAuthModels_load (authModelId : string)
| OpenConnectionAsync (config : ConnectionConfig)
| LogInfo (title : string)
| LogException (exception : Exception) (message : string)
| DialogOpen_ErrorDetails (exception : GQLError.t)
| OnClose (callback : Callback).

(** ** The controller's fields *)

Record Controller : Type := mkController {
  step : ConnectionStep.t;
  isLoading : bool;
  isConnecting : bool;
  dbSource : option DBSource.t;
  authModel : option DatabaseAuthModel;
  config : ConnectionConfig;
  hasDetails : bool;
  responseMessage : option string;
  exception : option GQLError.t;
  onClose : option Callback;
  isDistructed : bool
}.

(** The field initialisers of the class (lines 37-50). *)
Definition new_controller : Controller := {|
  step := ConnectionStep.DBSource;
  isLoading := true;
  isConnecting := false;
  dbSource := None;
  authModel := None;
  config := {[ "credentials" := obj ∅ ]};
  hasDetails := false;
  responseMessage := None;
  exception := None;
  onClose := None;
  isDistructed := false
|}.

(** The controller together with what its collaborators hold: the data of
    the two resources it reads, and the log of the calls made so far. *)
Record Sys : Type := mkSys {
  this : Controller;
  templateDataSourceListResource_data : list DBSource.t;
  dbDriverResource_data : gmap string DBDriver.t;
  calls : list Call
}.

Definition new_sys : Sys := {|
  this := new_controller;
  templateDataSourceListResource_data := [];
  dbDriverResource_data := ∅;
  calls := []
|}.

(** ** The monad: state of [Sys], with thrown exceptions *)

Inductive Result (A : Type) : Type :=
| Returned (a : A) (s : Sys)
| Raised (e : Exception) (s : Sys).
Arguments Returned {A} a s.
Arguments Raised {A} e s.

Definition M (A : Type) : Type := Sys → Result A.

Definition state_of {A : Type} (r : Result A) : Sys :=
  match r with
  | Returned _ s => s
  | Raised _ s => s
  end.

#[global] Instance M_ret : MRet M := λ A a s, Returned a s.

#[global] Instance M_bind : MBind M := λ A B f m s,
  match m s with
  | Returned a s' => f a s'
  | Raised e s' => Raised e s'
  end.

Definition raise {A : Type} (e : Exception) : M A := λ s, Raised e s.

(** [try { body } catch (exception) { handler }] *)
Definition try_catch {A : Type} (body : M A) (handler : Exception → M A) : M A :=
  λ s, match body s with
       | Returned a s' => Returned a s'
       | Raised e s' => handler e s'
       end.

(** [try { body } finally { fin }]: [fin] runs on both exits, and an
    exception of [body] is rethrown after it. *)
Definition try_finally {A : Type} (body : M A) (fin : M unit) : M A :=
  λ s, match body s with
       | Returned a s' =>
           match fin s' with
           | Returned _ s'' => Returned a s''
           | Raised e s'' => Raised e s''
           end
       | Raised e s' =>
           match fin s' with
           | Returned _ s'' => Raised e s''
           | Raised e' s'' => Raised e' s''
           end
       end.

(** The value of a settled promise at its [await]: the fulfilment value,
    or the rejection thrown. *)
Definition settled {A : Type} (r : Exception + A) : M A :=
  match r with
  | inr a => mret a
  | inl e => raise e
  end.

Definition gets {A : Type} (f : Controller → A) : M A :=
  λ s, Returned (f (this s)) s.

Definition update (f : Controller → Controller) : M unit :=
  λ s, Returned tt
    (mkSys (f (this s)) (templateDataSourceListResource_data s)
       (dbDriverResource_data s) (calls s)).

(** A call on a collaborator is appended to the log. *)
Definition emit (c : Call) : M unit :=
  λ s, Returned tt
    (mkSys (this s) (templateDataSourceListResource_data s)
       (dbDriverResource_data s) (calls s ++ [c])).

(** Assignments to the fields, [this.f = v]. *)
Definition set_step (v : ConnectionStep.t) : M unit :=
  update (λ c, mkController v (isLoading c) (isConnecting c) (dbSource c)
    (authModel c) (config c) (hasDetails c) (responseMessage c) (exception c)
    (onClose c) (isDistructed c)).
Definition set_isLoading (v : bool) : M unit :=
  update (λ c, mkController (step c) v (isConnecting c) (dbSource c)
    (authModel c) (config c) (hasDetails c) (responseMessage c) (exception c)
    (onClose c) (isDistructed c)).
Definition set_isConnecting (v : bool) : M unit :=
  update (λ c, mkController (step c) (isLoading c) v (dbSource c)
    (authModel c) (config c) (hasDetails c) (responseMessage c) (exception c)
    (onClose c) (isDistructed c)).
Definition set_dbSource (v : option DBSource.t) : M unit :=
  update (λ c, mkController (step c) (isLoading c) (isConnecting c) v
    (authModel c) (config c) (hasDetails c) (responseMessage c) (exception c)
    (onClose c) (isDistructed c)).
Definition set_authModel (v : option DatabaseAuthModel) : M unit :=
  update (λ c, mkController (step c) (isLoading c) (isConnecting c) (dbSource c)
    v (config c) (hasDetails c) (responseMessage c) (exception c)
    (onClose c) (isDistructed c)).
Definition set_config (v : ConnectionConfig) : M unit :=
  update (λ c, mkController (step c) (isLoading c) (isConnecting c) (dbSource c)
    (authModel c) v (hasDetails c) (responseMessage c) (exception c)
    (onClose c) (isDistructed c)).
Definition set_hasDetails (v : bool) : M unit :=
  update (λ c, mkController (step c) (isLoading c) (isConnecting c) (dbSource c)
    (authModel c) (config c) v (responseMessage c) (exception c)
    (onClose c) (isDistructed c)).
Definition set_responseMessage (v : option string) : M unit :=
  update (λ c, mkController (step c) (isLoading c) (isConnecting c) (dbSource c)
    (authModel c) (config c) (hasDetails c) v (exception c)
    (onClose c) (isDistructed c)).
Definition set_exception (v : option GQLError.t) : M unit :=
  update (λ c, mkController (step c) (isLoading c) (isConnecting c) (dbSource c)
    (authModel c) (config c) (hasDetails c) (responseMessage c) v
    (onClose c) (isDistructed c)).
Definition set_onClose (v : option Callback) : M unit :=
  update (λ c, mkController (step c) (isLoading c) (isConnecting c) (dbSource c)
    (authModel c) (config c) (hasDetails c) (responseMessage c) (exception c)
    v (isDistructed c)).
Definition set_isDistructed (v : bool) : M unit :=
  update (λ c, mkController (step c) (isLoading c) (isConnecting c) (dbSource c)
    (authModel c) (config c) (hasDetails c) (responseMessage c) (exception c)
    (onClose c) v).

(** [this.config.k = v]: the config object is mutated in place. *)
Definition set_config_prop (k : string) (v : JSValue) : M unit :=
  cfg ← gets config;
  set_config (<[k := v]> cfg).

(** Modelled from the spec: a resource's [loadAll()] populates its
    observable [data] when it succeeds. *)
Definition store_dbSources (data : list DBSource.t) : M unit :=
  λ s, Returned tt
    (mkSys (this s) data (dbDriverResource_data s) (calls s)).
Definition store_dbDrivers (data : gmap string DBDriver.t) : M unit :=
  λ s, Returned tt
    (mkSys (this s) (templateDataSourceListResource_data s) data (calls s)).

(** ** The methods of the class *)

(** [get dbSources()] (lines 52-54) *)
Definition dbSources : M (list DBSource.t) :=
  λ s, Returned (templateDataSourceListResource_data s) s.

(** [get dbDrivers()] (lines 56-58) *)
Definition dbDrivers : M (gmap string DBDriver.t) :=
  λ s, Returned (dbDriverResource_data s) s.

(** [get dbDriver()] (lines 60-65) *)
Definition dbDriver : M (option DBDriver.t) :=
  src ← gets dbSource;
  match src with
  | None => mret None
  | Some src =>
      drivers ← dbDrivers;
      mret (drivers !! DBSource.driverId src)
  end.

(** [notificationService.logInfo({ title })] *)
Definition logInfo (title : string) : M unit := emit (LogInfo title).

(** [notificationService.logException(exception, message)] *)
Definition logException (exception : Exception) (message : string) : M unit :=
  emit (LogException exception message).

(** [this.onClose()]: the field is assigned by [init] only; calling it
    before that throws a [TypeError]. *)
Definition call_onClose : M unit :=
  cb ← gets onClose;
  match cb with
  | Some cb => emit (OnClose cb)
  | None => raise (Other "this.onClose is not a function")
  end.

(** [clearError()] (lines 140-144) *)
Definition clearError : M unit :=
  set_responseMessage None;;
  set_hasDetails false;;
  set_exception None.

(** [showError(exception, message)] (lines 146-154) *)
Definition showError (exception : Exception) (message : string) : M unit :=
  destructed ← gets isDistructed;
  match instanceof_GQLError exception, destructed with
  | Some gql, false =>
      set_responseMessage (Some (GQLError.errorText gql));;
      set_hasDetails (GQLError.hasDetails gql);;
      set_exception (Some gql)
  | _, _ => logException exception message
  end.

(** [destruct()] (lines 81-83) *)
Definition destruct : M unit := set_isDistructed true.

(** [onStep(step)] (lines 85-88) *)
Definition onStep (step : ConnectionStep.t) : M unit :=
  set_step step;;
  clearError.

(** [onShowDetails()] (lines 118-122) *)
Definition onShowDetails : M unit :=
  e ← gets exception;
  match e with
  | Some e => emit (DialogOpen_ErrorDetails e)
  | None => mret tt
  end.

(** [getConnectionConfig()] (lines 124-131): a fresh object that receives
    three properties of [this.config]. *)
Definition getConnectionConfig : M ConnectionConfig :=
  this_config ← gets config;
  let config : ConnectionConfig := ∅ in
  let config := <["dataSourceId" := prop this_config "dataSourceId"]> config in
  let config := <["authModelId" := prop this_config "authModelId"]> config in
  let config := <["credentials" := prop this_config "credentials"]> config in
  mret config.

(** [setDBSourceDefaults()] (lines 133-138) *)
Definition setDBSourceDefaults : M unit :=
  src ← gets dbSource;
  set_config_prop "dataSourceId" (chain src DBSource.id);;
  drv ← dbDriver;
  set_config_prop "authModelId" (chain drv DBDriver.defaultAuthModel);;
  set_config_prop "credentials" (obj ∅).

(** *** The asynchronous methods, cut at their awaits *)

(** [loadAuthModel()] (lines 167-180), up to the await on line 174.  The
    result is the auth-model id whose load is now pending, or [None] when
    the method returned on line 169. *)
Definition loadAuthModel_begin : M (option string) :=
  drv ← dbDriver;
  match drv with
  | None => mret None
  | Some drv =>
      if DBDriver.anonymousAccess drv then mret None
      else
        set_isLoading true;;
        emit (DatabaseAuthModels_load (DBDriver.defaultAuthModel drv));;
        mret (Some (DBDriver.defaultAuthModel drv))
  end.

(** [loadAuthModel()], from the await on line 174 on: the assignment of
    the awaited value, and the catch and finally blocks. *)
Definition loadAuthModel_settle (r : Exception + DatabaseAuthModel) : M unit :=
  try_finally
    (try_catch
       (loaded ← settled r;
        set_authModel (Some loaded))
       (λ exception, logException exception "Can't load driver auth model"))
    (set_isLoading false).

(** [onConnect()] (lines 90-103), up to the await on line 94.  The result
    is the config passed to [openConnectionAsync]. *)
Definition onConnect_begin : M ConnectionConfig :=
  set_isConnecting true;;
  clearError;;
  cfg ← getConnectionConfig;
  emit (OpenConnectionAsync cfg);;
  mret cfg.

(** [onConnect()], from the await on line 94 on. *)
Definition onConnect_settle (r : Exception + Connection) : M unit :=
  try_finally
    (try_catch
       (connection ← settled r;
        logInfo ("Connection " +:+ name connection +:+ " established");;
        call_onClose)
       (λ exception, showError exception "Failed to establish connection"))
    (set_isConnecting false).

(** [onDBSourceSelect(sourceId)] (lines 105-116), up to the await on line
    108.  [find] yields [undefined] for an id that is not listed; the [!]
    that follows it is erased by the compiler. *)
Definition onDBSourceSelect_begin (sourceId : string) : M (option string) :=
  sources ← dbSources;
  set_dbSource
    (find (λ dbSource, String.eqb (DBSource.id dbSource) sourceId) sources);;
  loadAuthModel_begin.

(** [onDBSourceSelect(sourceId)], from the await on line 108 on.  [r] is
    the settlement of the pending auth-model load, [None] when
    [loadAuthModel] had returned without loading.  The call of [onConnect]
    on line 114 is not awaited: it runs up to its own await. *)
Definition onDBSourceSelect_settle
    (r : option (Exception + DatabaseAuthModel)) : M unit :=
  match r with
  | Some r => loadAuthModel_settle r
  | None => mret tt
  end;;
  clearError;;
  setDBSourceDefaults;;
  set_step ConnectionStep.Connection;;
  model ← gets authModel;
  match model with
  | None => onConnect_begin;; mret tt
  | Some _ => mret tt
  end.

(** [loadDBSources()] (lines 156-165), up to the await on line 158. *)
Definition loadDBSources_begin : M unit :=
  emit TemplateDataSourceList_loadAll.

(** [loadDBSources()], from the await on line 158 to the one on line 159.
    The result tells whether the load of the drivers is now pending; when
    the first load was rejected, the catch and finally blocks have run. *)
Definition loadDBSources_sources (r : Exception + list DBSource.t) : M bool :=
  match r with
  | inr data =>
      store_dbSources data;;
      emit DBDriver_loadAll;;
      mret true
  | inl exception =>
      logException exception "Can't load database sources";;
      set_isLoading false;;
      mret false
  end.

(** [loadDBSources()], from the await on line 159 on. *)
Definition loadDBSources_drivers
    (r : Exception + gmap string DBDriver.t) : M unit :=
  try_finally
    (try_catch
       (data ← settled r;
        store_dbDrivers data)
       (λ exception, logException exception "Can't load database sources"))
    (set_isLoading false).

(** [init(onClose)] (lines 76-79); [loadDBSources] is not awaited. *)
Definition init (onClose : Callback) : M unit :=
  set_onClose (Some onClose);;
  loadDBSources_begin.

(** ** Runs without interleaving

    What the collaborators answer.  A method run against them makes its
    call and goes on with the answer, nothing happening in between. *)
Record Services : Type := {
  templateDataSourceList_loadAll : Exception + list DBSource.t;
  dbDriver_loadAll : Exception + gmap string DBDriver.t;
  dbAuthModels_load : string → Exception + DatabaseAuthModel;
  openConnectionAsync : ConnectionConfig → Exception + Connection
}.

Section Run.
Variable svc : Services.

Definition loadAuthModel : M unit :=
  pending ← loadAuthModel_begin;
  match pending with
  | Some authModelId => loadAuthModel_settle (dbAuthModels_load svc authModelId)
  | None => mret tt
  end.

Definition onConnect : M unit :=
  cfg ← onConnect_begin;
  onConnect_settle (openConnectionAsync svc cfg).

Definition onDBSourceSelect (sourceId : string) : M unit :=
  pending ← onDBSourceSelect_begin sourceId;
  onDBSourceSelect_settle (dbAuthModels_load svc <$> pending).

Definition loadDBSources : M unit :=
  loadDBSources_begin;;
  pending ← loadDBSources_sources (templateDataSourceList_loadAll svc);
  if pending : bool then loadDBSources_drivers (dbDriver_loadAll svc)
  else mret tt.

End Run.

(** ** Arbitrary interleavings

    Every way the controller's state can move: a call of a public method,
    the private [setDBSourceDefaults], or the settlement of a pending
    call.  A history is any list of these, in any order. *)
Inductive Event : Type :=
| Init (onClose : Callback)
| Destruct
| OnStep (step : ConnectionStep.t)
| OnShowDetails
| SetDBSourceDefaults
| OnDBSourceSelect_begin (sourceId : string)
| OnDBSourceSelect_settle (r : option (Exception + DatabaseAuthModel))
| OnConnect_begin
| OnConnect_settle (r : Exception + Connection)
| LoadDBSources_sources (r : Exception + list DBSource.t)
| LoadDBSources_drivers (r : Exception + gmap string DBDriver.t).

Definition fire (ev : Event) : M unit :=
  match ev with
  | Init onClose => init onClose
  | Destruct => destruct
  | OnStep step => onStep step
  | OnShowDetails => onShowDetails
  | SetDBSourceDefaults => setDBSourceDefaults
  | OnDBSourceSelect_begin sourceId => onDBSourceSelect_begin sourceId;; mret tt
  | OnDBSourceSelect_settle r => onDBSourceSelect_settle r
  | OnConnect_begin => onConnect_begin;; mret tt
  | OnConnect_settle r => onConnect_settle r
  | LoadDBSources_sources r => loadDBSources_sources r;; mret tt
  | LoadDBSources_drivers r => loadDBSources_drivers r
  end.

Fixpoint run (history : list Event) (s : Sys) : Sys :=
  match history with
  | [] => s
  | ev :: history => run history (state_of (fire ev s))
  end.

(** ** Vocabulary of the statements *)

(** The lookup of line 106. *)
Definition selected (sourceId : string) (s : Sys) : option DBSource.t :=
  find (λ dbSource, String.eqb (DBSource.id dbSource) sourceId)
    (templateDataSourceListResource_data s).

(** The id is the id of none of the loaded sources. *)
Definition absent (sourceId : string) (s : Sys) : Prop :=
  sourceId ∉ DBSource.id <$> templateDataSourceListResource_data s.

(** [this.dbDriver] once [this.dbSource] is the source of this id. *)
Definition driver_of (sourceId : string) (s : Sys) : option DBDriver.t :=
  src ← selected sourceId s;
  dbDriverResource_data s !! DBSource.driverId src.

(** The driver that the getter [dbDriver] returns in state [s]. *)
Definition current_driver (s : Sys) : option DBDriver.t :=
  src ← dbSource (this s);
  dbDriverResource_data s !! DBSource.driverId src.

(** The three fields behind the dialog's error banner. *)
Definition error_state (s : Sys) : option string * bool * option GQLError.t :=
  (responseMessage (this s), hasDetails (this s), exception (this s)).

(** The three properties that [getConnectionConfig] copies. *)
Definition forwarded_keys : gset string :=
  {[ "dataSourceId"; "authModelId"; "credentials" ]}.

(** The config that [setDBSourceDefaults] leaves when there is neither a
    source nor a driver, seen through [getConnectionConfig]. *)
Definition undefined_config : ConnectionConfig :=
  <["credentials" := obj ∅]>
    (<["authModelId" := undefined]> (<["dataSourceId" := undefined]> ∅)).

(** The operation has failed hard: an exception has left it. *)
Definition fails_hard {A : Type} (r : Result A) : Prop :=
  ∃ e s', r = Raised e s'.

(** The error banner with nothing to show, as [clearError] leaves it. *)
Definition cleared : option string * bool * option GQLError.t :=
  (None, false, None).

(** The error banner showing a structured error, as [showError] leaves
    it. *)
Definition shown (e : GQLError.t) : option string * bool * option GQLError.t :=
  (Some (GQLError.errorText e), GQLError.hasDetails e, Some e).

(** The three fields of the banner agree: they show the exception held,
    or nothing. *)
Definition coherent (s : Sys) : Prop :=
  match exception (this s) with
  | Some e => error_state s = shown e
  | None => error_state s = cleared
  end.

(** The title of the notification on line 96. *)
Definition established (connection : Connection) : string :=
  "Connection " +:+ name connection +:+ " established".

Definition is_Init (ev : Event) : bool :=
  match ev with
  | Init _ => true
  | _ => false
  end.

Definition is_OnStep (ev : Event) : bool :=
  match ev with
  | OnStep _ => true
  | _ => false
  end.

(** The events that run [setDBSourceDefaults]. *)
Definition writes_config (ev : Event) : bool :=
  match ev with
  | SetDBSourceDefaults | OnDBSourceSelect_settle _ => true
  | _ => false
  end.

(** ** The scenario of the design document

    Source "pg1" on driver "postgres", which requires authentication with
    the "basic" model, next to a source "h2" on a driver that allows
    anonymous access. *)
Module Scenario.

Definition pg1 : DBSource.t := DBSource.Build "pg1" "postgres".
Definition h2 : DBSource.t := DBSource.Build "h2" "h2_embedded".

Definition postgres : DBDriver.t := DBDriver.Build "basic" false.
Definition h2_embedded : DBDriver.t := DBDriver.Build "native" true.

Definition drivers : gmap string DBDriver.t :=
  <["postgres" := postgres]> (<["h2_embedded" := h2_embedded]> ∅).

(** A fresh controller whose lists have been loaded. *)
Definition loaded : Sys := {|
  this := new_controller;
  templateDataSourceListResource_data := [pg1; h2];
  dbDriverResource_data := drivers;
  calls := []
|}.

Definition access_denied : GQLError.t := GQLError.Build "Access denied" true.

(** Every call succeeds. *)
Definition online : Services := {|
  templateDataSourceList_loadAll := inr [pg1; h2];
  dbDriver_loadAll := inr drivers;
  dbAuthModels_load := λ authModelId, inr {| authModelName := authModelId |};
  openConnectionAsync := λ _, inr {| name := "PostgreSQL@localhost" |}
|}.

(** The lists load, the auth models do not, and the server refuses every
    connection with a structured error. *)
Definition refusing : Services := {|
  templateDataSourceList_loadAll := inr [pg1; h2];
  dbDriver_loadAll := inr drivers;
  dbAuthModels_load := λ _, inl (Other "Network error");
  openConnectionAsync := λ _, inl (GQL access_denied)
|}.

(** Nothing can be reached. *)
Definition offline : Services := {|
  templateDataSourceList_loadAll := inl (Other "Network error");
  dbDriver_loadAll := inl (Other "Network error");
  dbAuthModels_load := λ _, inl (Other "Network error");
  openConnectionAsync := λ _, inl (Other "Network error")
|}.

End Scenario.

(** * Properties *)

(** Unfolds the methods down to the functions on [Sys] they denote. *)
Ltac unfold_methods :=
  unfold onDBSourceSelect, onDBSourceSelect_begin, onDBSourceSelect_settle,
    onConnect, onConnect_begin, onConnect_settle,
    loadAuthModel, loadAuthModel_begin, loadAuthModel_settle,
    loadDBSources, loadDBSources_begin, loadDBSources_sources,
    loadDBSources_drivers, init, destruct, onStep, onShowDetails,
    setDBSourceDefaults, getConnectionConfig, clearError, showError,
    call_onClose, logInfo, logException, dbDriver, dbDrivers, dbSources,
    set_config_prop, set_step, set_isLoading, set_isConnecting, set_dbSource,
    set_authModel, set_config, set_hasDetails, set_responseMessage,
    set_exception, set_onClose, set_isDistructed, store_dbSources,
    store_dbDrivers, try_finally, try_catch, settled, raise, gets, update,
    emit in *;
  unfold mbind, M_bind, mret, M_ret in *.

(** Runs a program symbolically, splitting on every test it makes. *)
Ltac step_through :=
  unfold_methods; cbn in *;
  repeat (case_match; cbn in *; simplify_eq).

(** ** Reading the config object *)

Lemma prop_insert_eq (o : ConnectionConfig) (k : string) (v : JSValue) :
  prop (<[k := v]> o) k = v.
Proof. unfold prop. by rewrite lookup_insert_eq. Qed.

Lemma prop_insert_ne (o : ConnectionConfig) (k k' : string) (v : JSValue) :
  k ≠ k' → prop (<[k := v]> o) k' = prop o k'.
Proof. intros Hne. unfold prop. by rewrite lookup_insert_ne. Qed.

Lemma prop_empty (k : string) : prop ∅ k = undefined.
Proof. unfold prop. by rewrite lookup_empty. Qed.

(** ** Looking a source up by id *)

Lemma find_id_None (sourceId : string) (l : list DBSource.t) :
  sourceId ∉ DBSource.id <$> l →
  find (λ dbSource, String.eqb (DBSource.id dbSource) sourceId) l = None.
Proof.
  induction l as [|d l IH]; intros Hnot; [done|].
  rewrite fmap_cons, not_elem_of_cons in Hnot. destruct Hnot as [Hne Hl].
  cbn. destruct (String.eqb_spec (DBSource.id d) sourceId) as [Heq|_].
  - by destruct Hne.
  - by apply IH.
Qed.

Lemma find_id_Some (sourceId : string) (l : list DBSource.t) (src : DBSource.t) :
  find (λ dbSource, String.eqb (DBSource.id dbSource) sourceId) l = Some src →
  src ∈ l ∧ DBSource.id src = sourceId.
Proof.
  induction l as [|d l IH]; intros Hfind; [done|].
  cbn in Hfind. destruct (String.eqb_spec (DBSource.id d) sourceId) as [Heq|_].
  - injection Hfind as ->. split; [apply list_elem_of_here | done].
  - destruct (IH Hfind) as [Hin Hid]. split; [by apply list_elem_of_further | done].
Qed.

Lemma selected_absent (sourceId : string) (s : Sys) :
  absent sourceId s → selected sourceId s = None.
Proof. apply find_id_None. Qed.

Lemma selected_loaded (sourceId : string) (s : Sys) (src : DBSource.t) :
  selected sourceId s = Some src →
  src ∈ templateDataSourceListResource_data s ∧ DBSource.id src = sourceId.
Proof. apply find_id_Some. Qed.

(** ** The log of calls *)

Lemma elem_of_app_other {A : Type} (x : A) (l tail : list A) :
  x ∉ tail → x ∈ l ++ tail → x ∈ l.
Proof. rewrite elem_of_app. tauto. Qed.

(** ** No exception escapes a method *)

Lemma showError_returns (exception : Exception) (message : string) (s : Sys) :
  ∃ s', showError exception message s = Returned tt s'.
Proof. step_through; eauto. Qed.

Lemma onConnect_begin_returns (s : Sys) :
  ∃ cfg s', onConnect_begin s = Returned cfg s'.
Proof. step_through; eauto. Qed.

Lemma onConnect_settle_returns (r : Exception + Connection) (s : Sys) :
  ∃ s', onConnect_settle r s = Returned tt s'.
Proof. step_through; eauto. Qed.

Lemma onDBSourceSelect_begin_returns (sourceId : string) (s : Sys) :
  ∃ pending s', onDBSourceSelect_begin sourceId s = Returned pending s'.
Proof. step_through; eauto. Qed.

Lemma onDBSourceSelect_settle_returns
    (r : option (Exception + DatabaseAuthModel)) (s : Sys) :
  ∃ s', onDBSourceSelect_settle r s = Returned tt s'.
Proof. step_through; eauto. Qed.

Lemma onDBSourceSelect_returns (svc : Services) (sourceId : string) (s : Sys) :
  ∃ s', onDBSourceSelect svc sourceId s = Returned tt s'.
Proof.
  unfold onDBSourceSelect, mbind, M_bind.
  destruct (onDBSourceSelect_begin_returns sourceId s) as (pending & s1 & ->).
  apply onDBSourceSelect_settle_returns.
Qed.

Lemma onConnect_returns (svc : Services) (s : Sys) :
  ∃ s', onConnect svc s = Returned tt s'.
Proof.
  unfold onConnect, mbind, M_bind.
  destruct (onConnect_begin_returns s) as (cfg & s1 & ->).
  apply onConnect_settle_returns.
Qed.

Lemma fire_returns (ev : Event) (s : Sys) :
  ∃ s', fire ev s = Returned tt s'.
Proof. destruct ev; unfold fire; step_through; eauto. Qed.

(** ** What never changes back *)

Lemma isDistructed_fire (ev : Event) (s : Sys) :
  isDistructed (this s) = true →
  isDistructed (this (state_of (fire ev s))) = true.
Proof. destruct ev; unfold fire; step_through; done. Qed.

Lemma isDistructed_run (history : list Event) (s : Sys) :
  isDistructed (this s) = true →
  isDistructed (this (run history s)) = true.
Proof.
  revert s. induction history as [|ev history IH]; intros s Hs; [done|].
  cbn. by apply IH, isDistructed_fire.
Qed.

Lemma authModel_fire (ev : Event) (s : Sys) :
  is_Some (authModel (this s)) →
  is_Some (authModel (this (state_of (fire ev s)))).
Proof.
  intros [m Hm]. destruct ev; unfold fire; step_through; eauto.
Qed.

Lemma authModel_run (history : list Event) (s : Sys) :
  is_Some (authModel (this s)) →
  is_Some (authModel (this (run history s))).
Proof.
  revert s. induction history as [|ev history IH]; intros s Hs; [done|].
  cbn. by apply IH, authModel_fire.
Qed.

(** ** The error banner *)

Lemma showError_destructed (exn : Exception) (message : string) (s : Sys) :
  isDistructed (this s) = true →
  showError exn message s =
    Returned tt
      (mkSys (this s) (templateDataSourceListResource_data s)
         (dbDriverResource_data s) (calls s ++ [LogException exn message])).
Proof. intros Hd. unfold_methods. cbn. rewrite Hd. by destruct exn. Qed.

Lemma onConnect_settle_destructed (exn : Exception) (s : Sys) :
  isDistructed (this s) = true →
  ∃ s', onConnect_settle (inl exn) s = Returned tt s' ∧
    error_state s' = error_state s ∧
    calls s' = calls s ++ [LogException exn "Failed to establish connection"].
Proof.
  intros Hd. unfold onConnect_settle, try_finally, try_catch, settled, raise.
  unfold mbind, M_bind. rewrite (showError_destructed _ _ _ Hd).
  unfold_methods. cbn. eauto.
Qed.

(** * The properties stated by the design document *)

(** C4.  After [destruct()] has been called, whatever happens next, an
    error delivered to the error handler leaves [responseMessage],
    [hasDetails] and the held exception as they are, be the error
    structured or generic; so a connect attempt that fails after the
    controller was destructed changes none of the three.  The error goes
    to the notification service instead. *)
Theorem destructed_failure_keeps_error_state
    (history : list Event) (s : Sys) (exn : Exception) (message : string) :
  let s1 := run (Destruct :: history) s in
  (∃ s2, showError exn message s1 = Returned tt s2 ∧
     error_state s2 = error_state s1 ∧
     calls s2 = calls s1 ++ [LogException exn message]) ∧
  (∃ s3, onConnect_settle (inl exn) s1 = Returned tt s3 ∧
     error_state s3 = error_state s1).
Proof.
  intros s1.
  assert (Hd : isDistructed (this s1) = true).
  { subst s1. cbn. by apply isDistructed_run. }
  split.
  - rewrite (showError_destructed _ _ _ Hd). eauto.
  - destruct (onConnect_settle_destructed exn s1 Hd) as (s3 & -> & He & _).
    eauto.
Qed.

(** C8.  A failure of either list load, or of the auth-model load, is
    passed to [logException] and to nothing else: the three fields of the
    error banner keep their values, also when the value thrown is a
    [GQLError].  No run of [loadDBSources] or [loadAuthModel] changes
    them. *)
Theorem load_failures_only_notify (exn : Exception) (s : Sys) :
  (∃ s', loadDBSources_sources (inl exn) s = Returned false s' ∧
     error_state s' = error_state s ∧
     calls s' = calls s ++ [LogException exn "Can't load database sources"]) ∧
  (∃ s', loadDBSources_drivers (inl exn) s = Returned tt s' ∧
     error_state s' = error_state s ∧
     calls s' = calls s ++ [LogException exn "Can't load database sources"]) ∧
  (∃ s', loadAuthModel_settle (inl exn) s = Returned tt s' ∧
     error_state s' = error_state s ∧
     calls s' = calls s ++ [LogException exn "Can't load driver auth model"]) ∧
  (∀ svc, error_state (state_of (loadDBSources svc s)) = error_state s) ∧
  (∀ svc, error_state (state_of (loadAuthModel svc s)) = error_state s).
Proof.
  repeat split.
  - unfold_methods. cbn. eauto.
  - unfold_methods. cbn. eauto.
  - unfold_methods. cbn. eauto.
  - intros svc. unfold error_state. step_through; done.
  - intros svc. unfold error_state. step_through; done.
Qed.

(** C9.  [getConnectionConfig()] returns an object with the properties
    [dataSourceId], [authModelId] and [credentials] and no other, each with
    the value it has in [this.config]; the controller is left as it was.  A
    config made of these three properties comes back unchanged, and the
    object returned is the one [onConnect] passes to
    [openConnectionAsync]. *)
Theorem getConnectionConfig_shape (s : Sys) :
  ∃ cfg, getConnectionConfig s = Returned cfg s ∧
    dom cfg = forwarded_keys ∧
    (∀ k, k ∈ forwarded_keys → prop cfg k = prop (config (this s)) k) ∧
    (∀ k, k ∉ forwarded_keys → cfg !! k = None) ∧
    (dom (config (this s)) = forwarded_keys → cfg = config (this s)) ∧
    (∃ s1, onConnect_begin s = Returned cfg s1 ∧
       calls s1 = calls s ++ [OpenConnectionAsync cfg] ∧
       config (this s1) = config (this s)).
Proof.
  destruct s as [c srcs drvs log]. unfold_methods. cbn.
  eexists. split; [reflexivity|].
  assert (Hdom : dom (<["credentials" := prop (config c) "credentials"]>
                       (<["authModelId" := prop (config c) "authModelId"]>
                          (<["dataSourceId" := prop (config c) "dataSourceId"]>
                             (∅ : ConnectionConfig)))) = forwarded_keys).
  { rewrite !dom_insert_L, dom_empty_L. unfold forwarded_keys. set_solver. }
  split; [exact Hdom|]. split; [|split; [|split]].
  - intros k Hk. unfold forwarded_keys in Hk.
    rewrite !elem_of_union, !elem_of_singleton in Hk.
    destruct Hk as [[-> | ->] | ->].
    + rewrite prop_insert_ne, prop_insert_ne, prop_insert_eq; done.
    + rewrite prop_insert_ne, prop_insert_eq; done.
    + by rewrite prop_insert_eq.
  - intros k Hk. rewrite <- Hdom in Hk. by apply not_elem_of_dom.
  - intros Hthree. apply map_eq. intros k.
    destruct (decide (k ∈ forwarded_keys)) as [Hk|Hk].
    + assert (Hin : is_Some (config c !! k)).
      { apply elem_of_dom. by rewrite Hthree. }
      destruct Hin as [v Hv].
      unfold forwarded_keys in Hk.
      rewrite !elem_of_union, !elem_of_singleton in Hk.
      destruct Hk as [[-> | ->] | ->]; unfold prop; rewrite Hv; cbn.
      * rewrite lookup_insert_ne, lookup_insert_ne, lookup_insert_eq; done.
      * rewrite lookup_insert_ne, lookup_insert_eq; done.
      * by rewrite lookup_insert_eq.
    + transitivity (@None JSValue).
      * apply not_elem_of_dom. by rewrite Hdom.
      * symmetry. apply not_elem_of_dom. by rewrite Hthree.
  - eexists. split; [reflexivity|]. cbn. done.
Qed.

(** A config of the documented shape, credentials filled in, comes back
    as it is. *)
Lemma getConnectionConfig_shape_witness :
  let cfg : ConnectionConfig :=
    <["dataSourceId" := str "pg1"]>
      (<["authModelId" := str "basic"]>
         (<["credentials" := obj {[ "user" := "admin" ]}]> ∅)) in
  let s := state_of (set_config cfg Scenario.loaded) in
  getConnectionConfig s = Returned cfg s.
Proof.
  intros cfg s.
  destruct (getConnectionConfig_shape s) as (cfg' & Hget & _ & _ & _ & Hround & _).
  rewrite Hget. f_equal. apply Hround. vm_compute. reflexivity.
Defined.

(** C7.  When the connection-opening call of [onConnect] fails on a
    controller that has not been destructed: a [GQLError] puts its
    [errorText] into [responseMessage] and the answer of its
    [hasDetails()] into [hasDetails], and is kept for [onShowDetails],
    which then opens the details dialog with it, and nothing is logged;
    any other error leaves [responseMessage] null as [onConnect] cleared
    it, and is passed to [logException] with the fallback message.  In
    both cases [isConnecting] is false at the end. *)
Theorem onConnect_failure_routing
    (svc : Services) (s : Sys) (cfg : ConnectionConfig) (exn : Exception) :
  isDistructed (this s) = false →
  getConnectionConfig s = Returned cfg s →
  openConnectionAsync svc cfg = inl exn →
  ∃ s', onConnect svc s = Returned tt s' ∧
    isConnecting (this s') = false ∧
    match exn with
    | GQL e =>
        error_state s' = (Some (GQLError.errorText e), GQLError.hasDetails e, Some e) ∧
        calls s' = calls s ++ [OpenConnectionAsync cfg] ∧
        calls (state_of (onShowDetails s')) =
          calls s' ++ [DialogOpen_ErrorDetails e]
    | Other _ =>
        error_state s' = (None, false, None) ∧
        calls s' = calls s ++
          [OpenConnectionAsync cfg;
           LogException exn "Failed to establish connection"]
    end.
Proof.
  intros Hlive Hcfg Hfail. destruct s as [c srcs drvs log].
  unfold onConnect, onConnect_begin, mbind, M_bind.
  unfold clearError, set_isConnecting, set_responseMessage, set_hasDetails,
    set_exception, update, emit, mbind, M_bind, mret, M_ret. cbn.
  unfold getConnectionConfig, gets, mbind, M_bind, mret, M_ret in Hcfg |- *.
  cbn in Hcfg |- *. injection Hcfg as Hcfg. rewrite Hcfg, Hfail.
  cbn in Hlive. destruct exn as [e|msg]; unfold_methods; cbn; rewrite Hlive; cbn.
  - eexists. split; [reflexivity|]. cbn. rewrite <- app_assoc. done.
  - eexists. split; [reflexivity|]. cbn. rewrite <- app_assoc. done.
Qed.

(** The server refuses the connection of a live controller with a
    structured error: the banner shows it. *)
Lemma onConnect_failure_routing_witness :
  ∃ s', onConnect Scenario.refusing Scenario.loaded = Returned tt s' ∧
    error_state s' = (Some "Access denied", true, Some Scenario.access_denied).
Proof.
  destruct (onConnect_failure_routing Scenario.refusing Scenario.loaded
              (<["credentials" := obj ∅]>
                 (<["authModelId" := undefined]>
                    (<["dataSourceId" := undefined]> ∅)))
              (GQL Scenario.access_denied))
    as (s' & Hrun & _ & Herr & _).
  - reflexivity.
  - vm_compute. reflexivity.
  - reflexivity.
  - exists s'. split; [exact Hrun | exact Herr].
Defined.

(** ** Source selection *)

Lemma dbDriver_current (s : Sys) : dbDriver s = Returned (current_driver s) s.
Proof.
  unfold current_driver. unfold_methods. cbn.
  by destruct (dbSource (this s)).
Qed.

(** The first half of a selection stores the source found and touches
    nothing else but [isLoading] and the log. *)
Lemma onDBSourceSelect_begin_frame (sourceId : string) (s : Sys) :
  ∃ pending s1, onDBSourceSelect_begin sourceId s = Returned pending s1 ∧
    dbSource (this s1) = selected sourceId s ∧
    current_driver s1 = driver_of sourceId s ∧
    authModel (this s1) = authModel (this s) ∧
    config (this s1) = config (this s) ∧
    isConnecting (this s1) = isConnecting (this s) ∧
    isDistructed (this s1) = isDistructed (this s) ∧
    match driver_of sourceId s with
    | Some drv =>
        if DBDriver.anonymousAccess drv
        then pending = None ∧ calls s1 = calls s
        else pending = Some (DBDriver.defaultAuthModel drv) ∧
             calls s1 = calls s ++
               [DatabaseAuthModels_load (DBDriver.defaultAuthModel drv)]
    | None => pending = None ∧ calls s1 = calls s
    end.
Proof.
  unfold driver_of, current_driver, selected.
  destruct s as [c srcs drvs log]. unfold_methods. cbn.
  destruct (find _ srcs) as [src|]; cbn; [|by eauto 12].
  destruct (drvs !! DBSource.driverId src) as [drv|] eqn:Hdrv; cbn;
    [|rewrite ?Hdrv; by eauto 12].
  destruct (DBDriver.anonymousAccess drv); cbn; rewrite ?Hdrv; by eauto 12.
Qed.

(** The second half of a selection, whatever state it resumes in: the
    config is rewritten from the source and driver current at that time,
    and the step is [Connection]. *)
Lemma onDBSourceSelect_settle_config
    (r : option (Exception + DatabaseAuthModel)) (s : Sys) :
  ∃ s', onDBSourceSelect_settle r s = Returned tt s' ∧
    step (this s') = ConnectionStep.Connection ∧
    dbSource (this s') = dbSource (this s) ∧
    prop (config (this s')) "credentials" = obj ∅ ∧
    prop (config (this s')) "dataSourceId" = chain (dbSource (this s)) DBSource.id ∧
    prop (config (this s')) "authModelId" =
      chain (current_driver s) DBDriver.defaultAuthModel.
Proof.
  unfold current_driver. destruct s as [c srcs drvs log].
  step_through;
    (eexists; split; [reflexivity|]; cbn;
     repeat (rewrite prop_insert_eq || rewrite prop_insert_ne by done);
     repeat match goal with H : _ !! _ = _ |- _ => rewrite H end; done).
Qed.

(** C6.  When a source selection has completed, [config.credentials] is
    the empty object, whatever the config held before;
    [config.dataSourceId] is the id of the source selected and
    [config.authModelId] the default auth-model id of its driver (both
    [undefined] where there is no such source or driver). *)
Theorem onDBSourceSelect_resets_config
    (svc : Services) (sourceId : string) (s : Sys) :
  ∃ s', onDBSourceSelect svc sourceId s = Returned tt s' ∧
    prop (config (this s')) "credentials" = obj ∅ ∧
    prop (config (this s')) "dataSourceId" =
      chain (selected sourceId s) DBSource.id ∧
    prop (config (this s')) "authModelId" =
      chain (driver_of sourceId s) DBDriver.defaultAuthModel ∧
    (∀ src drv,
       selected sourceId s = Some src →
       dbDriverResource_data s !! DBSource.driverId src = Some drv →
       prop (config (this s')) "dataSourceId" = str sourceId ∧
       prop (config (this s')) "authModelId" = str (DBDriver.defaultAuthModel drv)).
Proof.
  unfold onDBSourceSelect, mbind, M_bind.
  destruct (onDBSourceSelect_begin_frame sourceId s)
    as (pending & s1 & -> & Hsrc & Hdrv & _).
  destruct (onDBSourceSelect_settle_config (dbAuthModels_load svc <$> pending) s1)
    as (s' & -> & _ & _ & Hcred & Hid & Hmodel).
  rewrite Hsrc in Hid. rewrite Hdrv in Hmodel.
  exists s'. split; [done|]. split; [done|]. split; [done|]. split; [done|].
  intros src drv Hfound Hdriver. split.
  - rewrite Hid, Hfound. cbn. by destruct (selected_loaded _ _ _ Hfound) as [_ ->].
  - rewrite Hmodel. unfold driver_of. rewrite Hfound. cbn. by rewrite Hdriver.
Qed.

(** Credentials typed for "pg1" are gone once "h2" has been selected. *)
Lemma onDBSourceSelect_resets_config_witness :
  let typed : ConnectionConfig :=
    <["credentials" := obj {[ "user" := "admin" ]}]>
      (<["authModelId" := str "basic"]> (<["dataSourceId" := str "pg1"]> ∅)) in
  let s := state_of (set_config typed Scenario.loaded) in
  ∃ s', onDBSourceSelect Scenario.online "h2" s = Returned tt s' ∧
    prop (config (this s')) "credentials" = obj ∅ ∧
    prop (config (this s')) "dataSourceId" = str "h2" ∧
    prop (config (this s')) "authModelId" = str "native".
Proof.
  intros typed s.
  destruct (onDBSourceSelect_resets_config Scenario.online "h2" s)
    as (s' & Hrun & Hcred & _ & _ & Hloaded).
  destruct (Hloaded Scenario.h2 Scenario.h2_embedded) as [Hid Hmodel].
  - reflexivity.
  - vm_compute. reflexivity.
  - exists s'. repeat split; assumption.
Defined.

(** A selection of an id that is not listed, step by step. *)
Lemma onDBSourceSelect_absent_run
    (svc : Services) (sourceId : string) (s : Sys) :
  absent sourceId s →
  ∃ s', onDBSourceSelect svc sourceId s = Returned tt s' ∧
    dbSource (this s') = None ∧
    step (this s') = ConnectionStep.Connection ∧
    authModel (this s') = authModel (this s) ∧
    isLoading (this s') = isLoading (this s) ∧
    error_state s' = (None, false, None) ∧
    config (this s') =
      <["credentials" := obj ∅]>
        (<["authModelId" := undefined]>
           (<["dataSourceId" := undefined]> (config (this s)))) ∧
    match authModel (this s) with
    | None =>
        isConnecting (this s') = true ∧
        calls s' = calls s ++ [OpenConnectionAsync undefined_config]
    | Some _ =>
        isConnecting (this s') = isConnecting (this s) ∧
        calls s' = calls s
    end.
Proof.
  intros Habsent. apply selected_absent in Habsent. unfold selected in Habsent.
  destruct s as [c srcs drvs log]. cbn in Habsent.
  unfold_methods. cbn. rewrite Habsent. cbn.
  destruct (authModel c) as [m|]; cbn.
  - eexists. split; [reflexivity|]. cbn. done.
  - eexists. split; [reflexivity|]. cbn.
    repeat (rewrite prop_insert_eq || rewrite prop_insert_ne by done).
    done.
Qed.

(** C10.  For an id that is not in the loaded list, [onDBSourceSelect]
    completes without raising: [dbSource] becomes undefined, no auth model
    is loaded, [dataSourceId] and [authModelId] of the config become
    undefined and [credentials] the empty object, the step is
    [Connection], and when [authModel] is unset [onConnect] is invoked,
    passing exactly these undefined-valued properties to
    [openConnectionAsync]. *)
Theorem onDBSourceSelect_absent_source
    (svc : Services) (sourceId : string) (s : Sys) :
  absent sourceId s →
  ∃ s', onDBSourceSelect svc sourceId s = Returned tt s' ∧
    dbSource (this s') = None ∧
    authModel (this s') = authModel (this s) ∧
    (∀ authModelId, DatabaseAuthModels_load authModelId ∈ calls s' →
       DatabaseAuthModels_load authModelId ∈ calls s) ∧
    prop (config (this s')) "dataSourceId" = undefined ∧
    prop (config (this s')) "authModelId" = undefined ∧
    prop (config (this s')) "credentials" = obj ∅ ∧
    step (this s') = ConnectionStep.Connection ∧
    (authModel (this s) = None →
       isConnecting (this s') = true ∧
       calls s' = calls s ++ [OpenConnectionAsync undefined_config]).
Proof.
  intros Habsent.
  destruct (onDBSourceSelect_absent_run svc sourceId s Habsent)
    as (s' & Hrun & Hsrc & Hstep & Hmodel & _ & _ & Hcfg & Hconnect).
  exists s'. split; [done|]. split; [done|]. split; [done|].
  rewrite Hcfg.
  repeat (rewrite prop_insert_eq || rewrite prop_insert_ne by done).
  split; [|by destruct (authModel (this s))].
  intros authModelId.
  destruct (authModel (this s)); destruct Hconnect as [_ ->]; [done|].
  rewrite elem_of_app, list_elem_of_singleton. by intros [?|?].
Qed.

(** A fresh controller, asked for "mysql1", connects with undefined ids. *)
Lemma onDBSourceSelect_absent_source_witness :
  ∃ s', onDBSourceSelect Scenario.online "mysql1" Scenario.loaded = Returned tt s' ∧
    dbSource (this s') = None ∧
    step (this s') = ConnectionStep.Connection ∧
    calls s' = [OpenConnectionAsync undefined_config].
Proof.
  destruct (onDBSourceSelect_absent_source Scenario.online "mysql1" Scenario.loaded)
    as (s' & Hrun & Hsrc & _ & _ & _ & _ & _ & Hstep & Hconnect).
  - unfold absent. cbn. apply (bool_decide_unpack _). vm_compute. reflexivity.
  - exists s'. destruct Hconnect as [_ Hcalls]; [reflexivity|].
    repeat split; assumption.
Defined.

(** C2, as the design document has it, does not hold: selecting "mysql1",
    which is not listed, does not fail. *)
Lemma onDBSourceSelect_absent_fails_hard_counterexample :
  absent "mysql1" Scenario.loaded ∧
  ¬ fails_hard (onDBSourceSelect Scenario.online "mysql1" Scenario.loaded).
Proof.
  split.
  - unfold absent. cbn. apply (bool_decide_unpack _). vm_compute. reflexivity.
  - intros (e & s' & Hraised). vm_compute in Hraised. discriminate Hraised.
Qed.

(** C2, amended.  For an id that is not in the loaded list,
    [onDBSourceSelect] does not fail: it completes normally, with
    [dbSource] undefined and the step advanced to [Connection]. *)
Theorem onDBSourceSelect_absent_completes
    (svc : Services) (sourceId : string) (s : Sys) :
  absent sourceId s →
  ¬ fails_hard (onDBSourceSelect svc sourceId s) ∧
  ∃ s', onDBSourceSelect svc sourceId s = Returned tt s' ∧
    dbSource (this s') = None ∧
    step (this s') = ConnectionStep.Connection.
Proof.
  intros Habsent.
  destruct (onDBSourceSelect_absent_run svc sourceId s Habsent)
    as (s' & Hrun & Hsrc & Hstep & _).
  split.
  - intros (e & s'' & Hraised). rewrite Hrun in Hraised. discriminate Hraised.
  - by exists s'.
Qed.

Lemma onDBSourceSelect_absent_completes_witness :
  ∃ s', onDBSourceSelect Scenario.offline "mysql1" Scenario.loaded = Returned tt s' ∧
    dbSource (this s') = None.
Proof.
  destruct (onDBSourceSelect_absent_completes Scenario.offline "mysql1" Scenario.loaded)
    as (_ & s' & Hrun & Hsrc & _).
  - unfold absent. cbn. apply (bool_decide_unpack _). vm_compute. reflexivity.
  - exists s'. split; [exact Hrun | exact Hsrc].
Defined.

(** A selection of a listed source whose driver requires authentication,
    step by step, for either settlement of the auth-model load. *)
Lemma onDBSourceSelect_auth_run
    (svc : Services) (sourceId : string) (s : Sys)
    (src : DBSource.t) (drv : DBDriver.t) :
  selected sourceId s = Some src →
  dbDriverResource_data s !! DBSource.driverId src = Some drv →
  DBDriver.anonymousAccess drv = false →
  ∃ s', onDBSourceSelect svc sourceId s = Returned tt s' ∧
    dbSource (this s') = Some src ∧
    step (this s') = ConnectionStep.Connection ∧
    isLoading (this s') = false ∧
    config (this s') =
      <["credentials" := obj ∅]>
        (<["authModelId" := str (DBDriver.defaultAuthModel drv)]>
           (<["dataSourceId" := str sourceId]> (config (this s)))) ∧
    match dbAuthModels_load svc (DBDriver.defaultAuthModel drv) with
    | inr loaded =>
        authModel (this s') = Some loaded ∧
        isConnecting (this s') = isConnecting (this s) ∧
        calls s' = calls s ++
          [DatabaseAuthModels_load (DBDriver.defaultAuthModel drv)]
    | inl exn =>
        authModel (this s') = authModel (this s) ∧
        ∃ connecting,
          calls s' = calls s ++
            [DatabaseAuthModels_load (DBDriver.defaultAuthModel drv);
             LogException exn "Can't load driver auth model"] ++ connecting ∧
          match authModel (this s) with
          | None =>
              isConnecting (this s') = true ∧
              connecting =
                [OpenConnectionAsync
                   (<["credentials" := obj ∅]>
                      (<["authModelId" := str (DBDriver.defaultAuthModel drv)]>
                         (<["dataSourceId" := str sourceId]> ∅)))]
          | Some _ =>
              isConnecting (this s') = isConnecting (this s) ∧
              connecting = []
          end
    end.
Proof.
  intros Hfound Hdriver Hauth.
  destruct (selected_loaded _ _ _ Hfound) as [_ Hid].
  unfold selected in Hfound. destruct s as [c srcs drvs log].
  cbn in Hfound, Hdriver. unfold_methods. cbn.
  rewrite Hfound. cbn. rewrite Hdriver. cbn. rewrite Hauth. cbn.
  destruct (dbAuthModels_load svc (DBDriver.defaultAuthModel drv))
    as [exn|loaded]; cbn.
  - destruct (authModel c) as [m|]; cbn; rewrite Hdriver; cbn.
    + eexists. split; [reflexivity|]. cbn. rewrite Hid.
      repeat split; try done. exists []. by rewrite <- !app_assoc.
    + eexists. split; [reflexivity|]. cbn. rewrite Hid.
      repeat split; try done. eexists. split; [|split; [done|reflexivity]].
      rewrite <- !app_assoc. cbn.
      repeat (rewrite prop_insert_eq || rewrite prop_insert_ne by done).
      done.
  - rewrite Hdriver. cbn. eexists. split; [reflexivity|]. cbn. by rewrite Hid.
Qed.

(** C3, as the design document has it, does not hold: "pg1" on driver
    "postgres" requires authentication, yet when the load of the "basic"
    auth model fails, the selection ends with no auth model and with
    [onConnect] invoked, the connection being opened with empty
    credentials. *)
Lemma onDBSourceSelect_requires_auth_counterexample :
  selected "pg1" Scenario.loaded = Some Scenario.pg1 ∧
  dbDriverResource_data Scenario.loaded !! DBSource.driverId Scenario.pg1 =
    Some Scenario.postgres ∧
  DBDriver.anonymousAccess Scenario.postgres = false ∧
  ∃ s', onDBSourceSelect Scenario.refusing "pg1" Scenario.loaded = Returned tt s' ∧
    authModel (this s') = None ∧
    isConnecting (this s') = true ∧
    calls s' =
      [DatabaseAuthModels_load "basic";
       LogException (Other "Network error") "Can't load driver auth model";
       OpenConnectionAsync
         (<["credentials" := obj ∅]>
            (<["authModelId" := str "basic"]>
               (<["dataSourceId" := str "pg1"]> ∅)))].
Proof.
  split; [reflexivity|]. split; [vm_compute; reflexivity|].
  split; [reflexivity|].
  eexists. split; [vm_compute; reflexivity|].
  split; [reflexivity|]. split; [reflexivity|]. vm_compute. reflexivity.
Qed.

(** C3, amended.  When a listed source is selected whose driver requires
    authentication, and the load of the driver's default auth model
    succeeds, the model loaded is stored in [authModel] and the controller
    stops at step [Connection] with the config reset for the source;
    [onConnect] is not invoked, the load being the only call made. *)
Theorem onDBSourceSelect_loads_auth_model
    (svc : Services) (sourceId : string) (s : Sys)
    (src : DBSource.t) (drv : DBDriver.t) (loaded : DatabaseAuthModel) :
  selected sourceId s = Some src →
  dbDriverResource_data s !! DBSource.driverId src = Some drv →
  DBDriver.anonymousAccess drv = false →
  dbAuthModels_load svc (DBDriver.defaultAuthModel drv) = inr loaded →
  ∃ s', onDBSourceSelect svc sourceId s = Returned tt s' ∧
    authModel (this s') = Some loaded ∧
    step (this s') = ConnectionStep.Connection ∧
    isConnecting (this s') = isConnecting (this s) ∧
    calls s' = calls s ++
      [DatabaseAuthModels_load (DBDriver.defaultAuthModel drv)] ∧
    config (this s') =
      <["credentials" := obj ∅]>
        (<["authModelId" := str (DBDriver.defaultAuthModel drv)]>
           (<["dataSourceId" := str sourceId]> (config (this s)))).
Proof.
  intros Hfound Hdriver Hauth Hload.
  destruct (onDBSourceSelect_auth_run svc sourceId s src drv Hfound Hdriver Hauth)
    as (s' & Hrun & _ & Hstep & _ & Hcfg & Hsettled).
  rewrite Hload in Hsettled. destruct Hsettled as (Hmodel & Hconn & Hcalls).
  by exists s'.
Qed.

(** The end-to-end scenario of the design document: selecting "pg1" on a
    fresh controller. *)
Lemma onDBSourceSelect_loads_auth_model_witness :
  ∃ s', onDBSourceSelect Scenario.online "pg1" Scenario.loaded = Returned tt s' ∧
    step (this s') = ConnectionStep.Connection ∧
    config (this s') =
      <["dataSourceId" := str "pg1"]>
        (<["authModelId" := str "basic"]> (<["credentials" := obj ∅]> ∅)) ∧
    authModel (this s') = Some {| authModelName := "basic" |} ∧
    calls s' = [DatabaseAuthModels_load "basic"].
Proof.
  destruct (onDBSourceSelect_loads_auth_model Scenario.online "pg1"
              Scenario.loaded Scenario.pg1 Scenario.postgres
              {| authModelName := "basic" |})
    as (s' & Hrun & Hmodel & Hstep & _ & Hcalls & Hcfg).
  - reflexivity.
  - vm_compute. reflexivity.
  - reflexivity.
  - reflexivity.
  - exists s'. split; [exact Hrun|]. split; [exact Hstep|].
    split; [|split; [exact Hmodel | exact Hcalls]].
    rewrite Hcfg. vm_compute. reflexivity.
Defined.

(** A selection of a listed source whose driver allows anonymous access,
    step by step: no auth model is loaded, and whether [onConnect] is
    invoked depends on the [authModel] the controller already holds. *)
Lemma onDBSourceSelect_anonymous_run
    (svc : Services) (sourceId : string) (s : Sys)
    (src : DBSource.t) (drv : DBDriver.t) :
  selected sourceId s = Some src →
  dbDriverResource_data s !! DBSource.driverId src = Some drv →
  DBDriver.anonymousAccess drv = true →
  ∃ s', onDBSourceSelect svc sourceId s = Returned tt s' ∧
    dbSource (this s') = Some src ∧
    step (this s') = ConnectionStep.Connection ∧
    authModel (this s') = authModel (this s) ∧
    config (this s') =
      <["credentials" := obj ∅]>
        (<["authModelId" := str (DBDriver.defaultAuthModel drv)]>
           (<["dataSourceId" := str sourceId]> (config (this s)))) ∧
    match authModel (this s) with
    | None =>
        isConnecting (this s') = true ∧
        calls s' = calls s ++
          [OpenConnectionAsync
             (<["credentials" := obj ∅]>
                (<["authModelId" := str (DBDriver.defaultAuthModel drv)]>
                   (<["dataSourceId" := str sourceId]> ∅)))]
    | Some _ =>
        isConnecting (this s') = isConnecting (this s) ∧
        calls s' = calls s
    end.
Proof.
  intros Hfound Hdriver Hanon.
  destruct (selected_loaded _ _ _ Hfound) as [_ Hid].
  unfold selected in Hfound. destruct s as [c srcs drvs log].
  cbn in Hfound, Hdriver. unfold_methods. cbn.
  rewrite Hfound. cbn. rewrite Hdriver. cbn. rewrite Hanon. cbn.
  destruct (authModel c) as [m|]; cbn; rewrite Hdriver; cbn.
  - eexists. split; [reflexivity|]. cbn. by rewrite Hid.
  - eexists. split; [reflexivity|]. cbn. rewrite Hid.
    repeat (rewrite prop_insert_eq || rewrite prop_insert_ne by done).
    done.
Qed.

(** X13.  On a controller that holds no auth model, selecting a listed
    source whose driver allows anonymous access loads no auth model and
    invokes [onConnect] at once: the only call made opens the connection
    with the source's id, the driver's default auth-model id and empty
    credentials. *)
Lemma onDBSourceSelect_anonymous_connects
    (svc : Services) (sourceId : string) (s : Sys)
    (src : DBSource.t) (drv : DBDriver.t) :
  selected sourceId s = Some src →
  dbDriverResource_data s !! DBSource.driverId src = Some drv →
  DBDriver.anonymousAccess drv = true →
  authModel (this s) = None →
  ∃ s', onDBSourceSelect svc sourceId s = Returned tt s' ∧
    authModel (this s') = None ∧
    isConnecting (this s') = true ∧
    calls s' = calls s ++
      [OpenConnectionAsync
         (<["credentials" := obj ∅]>
            (<["authModelId" := str (DBDriver.defaultAuthModel drv)]>
               (<["dataSourceId" := str sourceId]> ∅)))].
Proof.
  intros Hfound Hdriver Hanon Hnone.
  destruct (onDBSourceSelect_anonymous_run svc sourceId s src drv
              Hfound Hdriver Hanon)
    as (s' & Hrun & _ & _ & Hmodel & _ & Hconnect).
  rewrite Hnone in Hmodel, Hconnect. destruct Hconnect as [Hconn Hcalls].
  by exists s'.
Qed.

(** C1 fails in the code.  "pg1" is selected and its auth model loads;
    then "h2" is selected, whose driver allows anonymous access.  The
    second selection loads no auth model, but it does not connect either:
    the model of "pg1" is still in [authModel], so the test on line 113
    fails, no call is made, and the controller waits at step
    [Connection] for credentials that "h2" does not need. *)
Theorem anonymous_select_after_auth_select_does_not_connect :
  let s1 := state_of (onDBSourceSelect Scenario.online "pg1" Scenario.loaded) in
  selected "h2" s1 = Some Scenario.h2 ∧
  driver_of "h2" s1 = Some Scenario.h2_embedded ∧
  DBDriver.anonymousAccess Scenario.h2_embedded = true ∧
  calls s1 = [DatabaseAuthModels_load "basic"] ∧
  ∃ s2, onDBSourceSelect Scenario.online "h2" s1 = Returned tt s2 ∧
    step (this s2) = ConnectionStep.Connection ∧
    prop (config (this s2)) "dataSourceId" = str "h2" ∧
    authModel (this s2) = Some {| authModelName := "basic" |} ∧
    isConnecting (this s2) = false ∧
    calls s2 = calls s1.
Proof.
  cbv zeta. split; [reflexivity|]. split; [vm_compute; reflexivity|].
  split; [reflexivity|]. split; [reflexivity|].
  eexists. split; [vm_compute; reflexivity|].
  split; [reflexivity|]. split; [vm_compute; reflexivity|].
  split; [reflexivity|]. split; reflexivity.
Qed.

(** C5.  An auth model that a load has stored stays: no history of
    method calls and settlements, in any order, brings [authModel] back
    to undefined.  In particular a source selection on a controller that
    holds an auth model resets the config and ends with an auth model
    held, never invoking [onConnect]; and where the selection loads
    nothing (the driver allows anonymous access, or there is none), the
    model held is the old one and no call is made at all. *)
Theorem authModel_is_never_reset (loaded : DatabaseAuthModel) :
  (∀ s, authModel (this (state_of (loadAuthModel_settle (inr loaded) s)))
        = Some loaded) ∧
  (∀ history s,
     is_Some (authModel (this s)) →
     is_Some (authModel (this (run history s)))) ∧
  (∀ svc s,
     authModel (this s) = Some loaded →
     authModel (this (state_of (onConnect svc s))) = Some loaded) ∧
  (∀ svc sourceId s,
     authModel (this s) = Some loaded →
     ∃ s', onDBSourceSelect svc sourceId s = Returned tt s' ∧
       is_Some (authModel (this s')) ∧
       prop (config (this s')) "credentials" = obj ∅ ∧
       isConnecting (this s') = isConnecting (this s) ∧
       (∀ cfg, OpenConnectionAsync cfg ∈ calls s' →
               OpenConnectionAsync cfg ∈ calls s) ∧
       (match driver_of sourceId s with
        | Some drv => DBDriver.anonymousAccess drv = true
        | None => True
        end →
        authModel (this s') = Some loaded ∧ calls s' = calls s)).
Proof.
  split; [|split; [|split]].
  - intros s. unfold_methods. by cbn.
  - apply authModel_run.
  - intros svc s Hheld. step_through; done.
  - intros svc sourceId s Hheld. unfold driver_of, selected.
    destruct s as [c srcs drvs log]. cbn in Hheld.
    unfold_methods. cbn.
    destruct (find _ srcs) as [src|]; cbn.
    + destruct (drvs !! DBSource.driverId src) as [drv|] eqn:Hdriver; cbn.
      * destruct (DBDriver.anonymousAccess drv) eqn:Hanon; cbn.
        -- rewrite Hheld, Hdriver. cbn. eexists. split; [reflexivity|]. cbn.
           rewrite prop_insert_eq. by eauto.
        -- destruct (dbAuthModels_load svc _) as [exn|fresh]; cbn;
             rewrite ?Hheld, Hdriver; cbn;
             (eexists; split; [reflexivity|]); cbn;
             rewrite prop_insert_eq;
             (split; [by eauto|]); (split; [done|]); (split; [done|]);
             (split; [|done]); intros cfg; rewrite <- ?app_assoc; simpl;
             apply elem_of_app_other;
             rewrite ?not_elem_of_cons; repeat split;
             try discriminate; apply not_elem_of_nil.
      * rewrite Hheld, Hdriver. cbn. eexists. split; [reflexivity|]. cbn.
        rewrite prop_insert_eq. by eauto.
    + rewrite Hheld. cbn. eexists. split; [reflexivity|]. cbn.
      rewrite prop_insert_eq. by eauto.
Qed.

(** The model loaded for "pg1" survives the selection of "h2", then a
    step back, a connect attempt that is refused, and [destruct]. *)
Lemma authModel_is_never_reset_witness :
  let s1 := state_of (onDBSourceSelect Scenario.online "pg1" Scenario.loaded) in
  is_Some
    (authModel
       (this
          (run [OnDBSourceSelect_begin "h2"; OnDBSourceSelect_settle None;
                OnStep ConnectionStep.DBSource; OnConnect_begin;
                OnConnect_settle (inl (GQL Scenario.access_denied));
                SetDBSourceDefaults; Destruct] s1))).
Proof.
  intros s1.
  destruct (authModel_is_never_reset {| authModelName := "basic" |})
    as (_ & Hhistory & _).
  apply Hhistory. exists {| authModelName := "basic" |}. reflexivity.
Defined.

(** * Further properties of the controller *)

(** ** Connecting *)

(** X1.  When the connection opens and a close callback has been bound,
    [onConnect] makes three calls in this order: it opens the connection
    with the forwarded config, notifies "Connection <name> established",
    and calls the close callback.  The banner is clear, [isConnecting] is
    false again, and step and config are as they were. *)
Theorem onConnect_success_closes
    (svc : Services) (s : Sys) (cfg : ConnectionConfig)
    (connection : Connection) (callback : Callback) :
  getConnectionConfig s = Returned cfg s →
  openConnectionAsync svc cfg = inr connection →
  onClose (this s) = Some callback →
  ∃ s', onConnect svc s = Returned tt s' ∧
    calls s' = calls s ++
      [OpenConnectionAsync cfg; LogInfo (established connection);
       OnClose callback] ∧
    isConnecting (this s') = false ∧
    error_state s' = cleared ∧
    step (this s') = step (this s) ∧
    config (this s') = config (this s).
Proof.
  intros Hcfg Hopen Hbound. destruct s as [c srcs drvs log].
  unfold getConnectionConfig, gets, mbind, M_bind, mret, M_ret in Hcfg.
  cbn in Hcfg, Hbound. injection Hcfg as Hcfg.
  unfold_methods. cbn. rewrite Hcfg, Hopen. cbn. rewrite Hbound. cbn.
  eexists. split; [reflexivity|]. unfold established. cbn.
  rewrite <- !app_assoc. repeat split.
Qed.

Lemma onConnect_success_closes_witness :
  let s := state_of (init 7 Scenario.loaded) in
  ∃ s', onConnect Scenario.online s = Returned tt s' ∧
    calls s' =
      [TemplateDataSourceList_loadAll;
       OpenConnectionAsync undefined_config;
       LogInfo "Connection PostgreSQL@localhost established";
       OnClose 7].
Proof.
  intros s.
  destruct (onConnect_success_closes Scenario.online s undefined_config
              {| name := "PostgreSQL@localhost" |} 7)
    as (s' & Hrun & Hcalls & _).
  - vm_compute. reflexivity.
  - reflexivity.
  - reflexivity.
  - exists s'. split; [exact Hrun | exact Hcalls].
Defined.

(** X2.  When the connection opens on a controller whose [init] has not
    run, there is no close callback to call: the call on line 97 throws
    inside the try block, after the success notification has gone out.
    The exception is caught and, not being a [GQLError], handed to
    [logException] with "Failed to establish connection"; no callback is
    called and the banner stays clear. *)
Theorem onConnect_success_before_init
    (svc : Services) (s : Sys) (cfg : ConnectionConfig)
    (connection : Connection) :
  getConnectionConfig s = Returned cfg s →
  openConnectionAsync svc cfg = inr connection →
  onClose (this s) = None →
  ∃ s' typeError, onConnect svc s = Returned tt s' ∧
    instanceof_GQLError typeError = None ∧
    calls s' = calls s ++
      [OpenConnectionAsync cfg; LogInfo (established connection);
       LogException typeError "Failed to establish connection"] ∧
    isConnecting (this s') = false ∧
    error_state s' = cleared.
Proof.
  intros Hcfg Hopen Hunbound. destruct s as [c srcs drvs log].
  unfold getConnectionConfig, gets, mbind, M_bind, mret, M_ret in Hcfg.
  cbn in Hcfg, Hunbound. injection Hcfg as Hcfg.
  unfold_methods. cbn. rewrite Hcfg, Hopen. cbn. rewrite Hunbound. cbn.
  eexists. exists (Other "this.onClose is not a function").
  split; [reflexivity|]. unfold established. cbn.
  rewrite <- !app_assoc. repeat split.
Qed.

Lemma onConnect_success_before_init_witness :
  ∃ s' typeError,
    onConnect Scenario.online Scenario.loaded = Returned tt s' ∧
    calls s' =
      [OpenConnectionAsync undefined_config;
       LogInfo "Connection PostgreSQL@localhost established";
       LogException typeError "Failed to establish connection"].
Proof.
  destruct (onConnect_success_before_init Scenario.online Scenario.loaded
              undefined_config {| name := "PostgreSQL@localhost" |})
    as (s' & typeError & Hrun & _ & Hcalls & _).
  - vm_compute. reflexivity.
  - reflexivity.
  - reflexivity.
  - exists s', typeError. split; [exact Hrun | exact Hcalls].
Defined.

(** X3.  [isConnecting] brackets the attempt: it is true from the start
    of [onConnect] until the call settles, and false once it has settled,
    whether the connection opened or not and whatever the state the
    settlement finds, a destructed controller included. *)
Theorem isConnecting_brackets_the_attempt (s : Sys) :
  isConnecting (this (state_of (onConnect_begin s))) = true ∧
  (∀ r, isConnecting (this (state_of (onConnect_settle r s))) = false) ∧
  (∀ svc, isConnecting (this (state_of (onConnect svc s))) = false).
Proof.
  split; [|split].
  - unfold_methods. by cbn.
  - intros r. step_through; done.
  - intros svc. step_through; done.
Qed.

(** X4.  After [onConnect] the banner tells of this attempt only: it shows
    the [GQLError] that the attempt was refused with, on a controller that
    has not been destructed, and is clear in every other case, whatever
    error an earlier attempt had left there. *)
Theorem onConnect_banner_reflects_this_attempt (svc : Services) (s : Sys) :
  ∃ cfg, getConnectionConfig s = Returned cfg s ∧
    error_state (state_of (onConnect svc s)) =
      match openConnectionAsync svc cfg with
      | inl (GQL e) => if isDistructed (this s) then cleared else shown e
      | _ => cleared
      end.
Proof.
  destruct s as [c srcs drvs log]. unfold_methods. cbn.
  eexists. split; [reflexivity|].
  destruct (openConnectionAsync svc _) as [[e|msg]|connection]; cbn.
  - by destruct (isDistructed c).
  - by destruct (isDistructed c).
  - by destruct (onClose c).
Qed.

(** ** Loading the lists *)

(** X5.  [loadDBSources] asks for the sources first and for the drivers
    only when the sources have arrived.  A failure of the first load ends
    it: the drivers are never asked for.  Either failure is logged once,
    with "Can't load database sources".  In every case [isLoading] is
    false at the end, so the dialog never stays busy after the loads have
    settled. *)
Theorem loadDBSources_outcomes (svc : Services) (s : Sys) :
  ∃ s', loadDBSources svc s = Returned tt s' ∧
    isLoading (this s') = false ∧
    match templateDataSourceList_loadAll svc with
    | inl exn =>
        calls s' = calls s ++
          [TemplateDataSourceList_loadAll;
           LogException exn "Can't load database sources"] ∧
        templateDataSourceListResource_data s' =
          templateDataSourceListResource_data s ∧
        dbDriverResource_data s' = dbDriverResource_data s
    | inr sources =>
        templateDataSourceListResource_data s' = sources ∧
        match dbDriver_loadAll svc with
        | inl exn =>
            calls s' = calls s ++
              [TemplateDataSourceList_loadAll; DBDriver_loadAll;
               LogException exn "Can't load database sources"] ∧
            dbDriverResource_data s' = dbDriverResource_data s
        | inr drivers =>
            calls s' = calls s ++
              [TemplateDataSourceList_loadAll; DBDriver_loadAll] ∧
            dbDriverResource_data s' = drivers
        end
    end.
Proof.
  destruct s as [c srcs drvs log]. unfold_methods. cbn.
  destruct (templateDataSourceList_loadAll svc) as [exn|sources]; cbn.
  - eexists. split; [reflexivity|]. cbn. rewrite <- !app_assoc.
    repeat split.
  - destruct (dbDriver_loadAll svc) as [exn|drivers]; cbn;
      (eexists; split; [reflexivity|]); cbn; rewrite <- !app_assoc;
      repeat split.
Qed.

(** ** The close callback *)

Lemma onClose_fire (ev : Event) (s : Sys) :
  is_Init ev = false →
  onClose (this (state_of (fire ev s))) = onClose (this s).
Proof.
  destruct ev; intros Hev; try discriminate Hev; unfold fire;
    step_through; done.
Qed.

Lemma onClose_run (history : list Event) (s : Sys) :
  Forall (λ ev, is_Init ev = false) history →
  onClose (this (run history s)) = onClose (this s).
Proof.
  revert s. induction history as [|ev history IH]; intros s Hall; [done|].
  apply Forall_cons in Hall as [Hev Hall]. cbn.
  rewrite IH by done. by apply onClose_fire.
Qed.

(** X6.  [init] binds the close callback and asks for the source list,
    and the binding lasts: whatever happens afterwards, short of another
    [init], a connection that opens is followed by the success
    notification and a call of exactly the callback that [init] was
    given. *)
Theorem init_binds_onClose
    (callback : Callback) (history : list Event) (s : Sys)
    (connection : Connection) :
  Forall (λ ev, is_Init ev = false) history →
  calls (state_of (init callback s)) =
    calls s ++ [TemplateDataSourceList_loadAll] ∧
  let s1 := run (Init callback :: history) s in
  ∃ s', onConnect_settle (inr connection) s1 = Returned tt s' ∧
    calls s' = calls s1 ++
      [LogInfo (established connection); OnClose callback].
Proof.
  intros Hall. split; [by unfold_methods|].
  intros s1.
  assert (Hbound : onClose (this s1) = Some callback).
  { subst s1. cbn [run]. rewrite onClose_run by done. by unfold_methods. }
  destruct s1 as [c srcs drvs log]. cbn in Hbound.
  unfold_methods. cbn. rewrite Hbound. cbn.
  eexists. split; [reflexivity|]. unfold established. cbn.
  by rewrite <- !app_assoc.
Qed.

Lemma init_binds_onClose_witness :
  let s1 :=
    run [Init 7; LoadDBSources_sources (inr [Scenario.h2]);
         LoadDBSources_drivers (inr Scenario.drivers);
         OnDBSourceSelect_begin "h2"; OnDBSourceSelect_settle None;
         Destruct] new_sys in
  ∃ s', onConnect_settle (inr {| name := "H2" |}) s1 = Returned tt s' ∧
    calls s' = calls s1 ++ [LogInfo "Connection H2 established"; OnClose 7].
Proof.
  intros s1.
  destruct (init_binds_onClose 7
              [LoadDBSources_sources (inr [Scenario.h2]);
               LoadDBSources_drivers (inr Scenario.drivers);
               OnDBSourceSelect_begin "h2"; OnDBSourceSelect_settle None;
               Destruct] new_sys {| name := "H2" |})
    as [_ Hclose].
  - repeat constructor.
  - exact Hclose.
Defined.

(** ** The error banner *)

Lemma onDBSourceSelect_settle_banner
    (r : option (Exception + DatabaseAuthModel)) (s : Sys) :
  error_state (state_of (onDBSourceSelect_settle r s)) = cleared.
Proof. unfold error_state, cleared. step_through; done. Qed.

(** The settlement of a connect attempt leaves the banner as it is or, on
    a controller that has not been destructed, makes it show the
    structured error of the refusal. *)
Lemma onConnect_settle_banner (r : Exception + Connection) (s : Sys) :
  error_state (state_of (onConnect_settle r s)) = error_state s ∨
  (isDistructed (this s) = false ∧
   ∃ e, error_state (state_of (onConnect_settle r s)) = shown e).
Proof. unfold error_state, shown. step_through; eauto. Qed.

(** An event leaves the banner as it is, clears it, or, on a controller
    that has not been destructed, makes it show a structured error. *)
Lemma banner_fire (ev : Event) (s : Sys) :
  error_state (state_of (fire ev s)) = error_state s ∨
  error_state (state_of (fire ev s)) = cleared ∨
  (isDistructed (this s) = false ∧
   ∃ e, error_state (state_of (fire ev s)) = shown e).
Proof.
  destruct ev; unfold fire.
  - left. by unfold_methods.
  - left. by unfold_methods.
  - right. left. by unfold_methods.
  - left. unfold error_state. step_through; simpl; congruence.
  - left. unfold error_state. step_through; simpl; congruence.
  - left. unfold error_state. step_through; simpl; congruence.
  - right. left. apply onDBSourceSelect_settle_banner.
  - right. left. by unfold_methods.
  - destruct (onConnect_settle_banner r s) as [Hkept|Hshown]; eauto.
  - left. unfold error_state. step_through; simpl; congruence.
  - left. unfold error_state. step_through; simpl; congruence.
Qed.

Lemma coherent_error_state (s s' : Sys) :
  error_state s' = error_state s → coherent s → coherent s'.
Proof.
  unfold coherent, error_state. intros [= Hmessage Hdetails Hheld].
  by rewrite Hmessage, Hdetails, Hheld.
Qed.

Lemma coherent_fire (ev : Event) (s : Sys) :
  coherent s → coherent (state_of (fire ev s)).
Proof.
  intros Hs. destruct (banner_fire ev s) as [Hkept|[Hclear|(_ & e & Hshown)]].
  - by apply (coherent_error_state s).
  - assert (Hheld : exception (this (state_of (fire ev s))) = None).
    { unfold error_state, cleared in Hclear. congruence. }
    unfold coherent. by rewrite Hheld.
  - assert (Hheld : exception (this (state_of (fire ev s))) = Some e).
    { unfold error_state, shown in Hshown. congruence. }
    unfold coherent. by rewrite Hheld.
Qed.

(** X7.  The three fields of the banner always agree.  Through any
    history of calls and settlements, either an exception is held and
    [responseMessage] and [hasDetails] are its text and its details flag,
    or none is held and they are null and false: the "show details"
    affordance never appears without an error to show, and never shows
    the details of another error than the one displayed. *)
Theorem error_banner_stays_coherent (history : list Event) (s : Sys) :
  coherent s → coherent (run history s).
Proof.
  revert s. induction history as [|ev history IH]; intros s Hs; [done|].
  cbn. by apply IH, coherent_fire.
Qed.

Lemma error_banner_stays_coherent_witness :
  coherent
    (run [OnConnect_begin;
          OnConnect_settle (inl (GQL Scenario.access_denied));
          OnShowDetails; OnDBSourceSelect_begin "pg1";
          OnConnect_settle (inl (Other "Network error"))]
       Scenario.loaded).
Proof.
  apply (error_banner_stays_coherent _ Scenario.loaded). reflexivity.
Defined.

(** X8.  [onStep] moves to the step asked for, forward or back, and
    clears the banner, so that [onShowDetails] has nothing to open
    afterwards.  It makes no call and keeps the selected source, the auth
    model and the config: stepping back does not undo the selection. *)
Theorem onStep_keeps_selection (target : ConnectionStep.t) (s : Sys) :
  ∃ s', onStep target s = Returned tt s' ∧
    step (this s') = target ∧
    error_state s' = cleared ∧
    onShowDetails s' = Returned tt s' ∧
    calls s' = calls s ∧
    dbSource (this s') = dbSource (this s) ∧
    authModel (this s') = authModel (this s) ∧
    config (this s') = config (this s) ∧
    isConnecting (this s') = isConnecting (this s).
Proof.
  destruct s as [c srcs drvs log]. unfold_methods. cbn.
  eexists. split; [reflexivity|]. by cbn.
Qed.

(** ** What only one method changes *)

Lemma step_fire (ev : Event) (s : Sys) :
  is_OnStep ev = false →
  step (this s) = ConnectionStep.Connection →
  step (this (state_of (fire ev s))) = ConnectionStep.Connection.
Proof.
  destruct ev; intros Hev; try discriminate Hev; unfold fire;
    step_through; done.
Qed.

(** X9.  The dialog does not go back by itself.  Once at step
    [Connection], it stays there through any history without a call of
    [onStep]: no load, selection, connect attempt or failure returns it
    to the source list. *)
Theorem step_never_goes_back (history : list Event) (s : Sys) :
  Forall (λ ev, is_OnStep ev = false) history →
  step (this s) = ConnectionStep.Connection →
  step (this (run history s)) = ConnectionStep.Connection.
Proof.
  revert s. induction history as [|ev history IH]; intros s Hall Hs; [done|].
  apply Forall_cons in Hall as [Hev Hall]. cbn.
  apply IH; [done|]. by apply step_fire.
Qed.

Lemma step_never_goes_back_witness :
  let s := state_of (onDBSourceSelect Scenario.online "pg1" Scenario.loaded) in
  step
    (this
       (run [OnConnect_begin;
             OnConnect_settle (inl (GQL Scenario.access_denied));
             LoadDBSources_sources (inl (Other "Network error"));
             Destruct] s))
  = ConnectionStep.Connection.
Proof.
  intros s. apply step_never_goes_back.
  - repeat constructor.
  - reflexivity.
Defined.

Lemma config_fire (ev : Event) (s : Sys) :
  writes_config ev = false →
  config (this (state_of (fire ev s))) = config (this s).
Proof.
  destruct ev; intros Hev; try discriminate Hev; unfold fire;
    step_through; done.
Qed.

(** X10.  The config is written by source selection only.  Through any
    history in which no selection completes, the config, credentials
    included, is as it was: a connect attempt, refused or not, a step
    change, a load or [destruct] does not touch what the user entered, so
    a refused attempt can be retried with the same credentials. *)
Theorem config_written_by_selection_only (history : list Event) (s : Sys) :
  Forall (λ ev, writes_config ev = false) history →
  config (this (run history s)) = config (this s).
Proof.
  revert s. induction history as [|ev history IH]; intros s Hall; [done|].
  apply Forall_cons in Hall as [Hev Hall]. cbn.
  rewrite IH by done. by apply config_fire.
Qed.

Lemma config_written_by_selection_only_witness :
  let s := state_of (onDBSourceSelect Scenario.online "pg1" Scenario.loaded) in
  config
    (this
       (run [OnConnect_begin;
             OnConnect_settle (inl (GQL Scenario.access_denied));
             OnShowDetails; OnStep ConnectionStep.DBSource;
             OnDBSourceSelect_begin "h2"; Destruct] s))
  = config (this s).
Proof.
  intros s. apply config_written_by_selection_only. repeat constructor.
Defined.

(** ** Edges of source selection *)

(** X11.  A listed source whose driver is not in the driver registry is
    selected like one with anonymous access: no auth model is loaded,
    [config.authModelId] becomes undefined while [config.dataSourceId] is
    the source's id, and when the controller holds no auth model
    [onConnect] is invoked at once with that config. *)
Theorem onDBSourceSelect_unknown_driver
    (svc : Services) (sourceId : string) (s : Sys) (src : DBSource.t) :
  selected sourceId s = Some src →
  dbDriverResource_data s !! DBSource.driverId src = None →
  ∃ s', onDBSourceSelect svc sourceId s = Returned tt s' ∧
    dbSource (this s') = Some src ∧
    step (this s') = ConnectionStep.Connection ∧
    authModel (this s') = authModel (this s) ∧
    config (this s') =
      <["credentials" := obj ∅]>
        (<["authModelId" := undefined]>
           (<["dataSourceId" := str sourceId]> (config (this s)))) ∧
    match authModel (this s) with
    | None =>
        isConnecting (this s') = true ∧
        calls s' = calls s ++
          [OpenConnectionAsync
             (<["credentials" := obj ∅]>
                (<["authModelId" := undefined]>
                   (<["dataSourceId" := str sourceId]> ∅)))]
    | Some _ =>
        isConnecting (this s') = isConnecting (this s) ∧
        calls s' = calls s
    end.
Proof.
  intros Hfound Hdriver.
  destruct (selected_loaded _ _ _ Hfound) as [_ Hid].
  unfold selected in Hfound. destruct s as [c srcs drvs log].
  cbn in Hfound, Hdriver. unfold_methods. cbn.
  rewrite Hfound. cbn. rewrite Hdriver. cbn.
  destruct (authModel c) as [m|]; cbn; rewrite Hdriver; cbn.
  - eexists. split; [reflexivity|]. cbn. by rewrite Hid.
  - eexists. split; [reflexivity|]. cbn. rewrite Hid.
    repeat (rewrite prop_insert_eq || rewrite prop_insert_ne by done).
    done.
Qed.

Lemma onDBSourceSelect_unknown_driver_witness :
  let orphan := DBSource.Build "ora1" "oracle" in
  let s :=
    mkSys new_controller [Scenario.pg1; orphan] Scenario.drivers [] in
  ∃ s', onDBSourceSelect Scenario.online "ora1" s = Returned tt s' ∧
    authModel (this s') = None ∧
    prop (config (this s')) "authModelId" = undefined ∧
    calls s' =
      [OpenConnectionAsync
         (<["credentials" := obj ∅]>
            (<["authModelId" := undefined]>
               (<["dataSourceId" := str "ora1"]> ∅)))].
Proof.
  intros orphan s.
  destruct (onDBSourceSelect_unknown_driver Scenario.online "ora1" s orphan)
    as (s' & Hrun & _ & _ & Hmodel & Hcfg & Hconnect).
  - reflexivity.
  - vm_compute. reflexivity.
  - exists s'. split; [exact Hrun|]. split; [exact Hmodel|].
    split; [rewrite Hcfg; vm_compute; reflexivity|].
    destruct Hconnect as [_ Hcalls]. exact Hcalls.
Defined.

(** X12.  When the auth-model load of a selection is rejected, the
    rejection is logged with "Can't load driver auth model" and is not
    shown in the banner; [authModel] keeps whatever it held, while the
    config is reset for the new source and names the new driver's auth
    model.  A controller that held no auth model then goes on to invoke
    [onConnect], with empty credentials; one that held a model does not,
    and keeps the old model beside the new [authModelId]. *)
Theorem onDBSourceSelect_auth_load_rejected
    (svc : Services) (sourceId : string) (s : Sys)
    (src : DBSource.t) (drv : DBDriver.t) (exn : Exception) :
  selected sourceId s = Some src →
  dbDriverResource_data s !! DBSource.driverId src = Some drv →
  DBDriver.anonymousAccess drv = false →
  dbAuthModels_load svc (DBDriver.defaultAuthModel drv) = inl exn →
  ∃ s', onDBSourceSelect svc sourceId s = Returned tt s' ∧
    authModel (this s') = authModel (this s) ∧
    isLoading (this s') = false ∧
    error_state s' = cleared ∧
    prop (config (this s')) "authModelId" = str (DBDriver.defaultAuthModel drv) ∧
    prop (config (this s')) "credentials" = obj ∅ ∧
    calls s' = calls s ++
      [DatabaseAuthModels_load (DBDriver.defaultAuthModel drv);
       LogException exn "Can't load driver auth model"] ++
      match authModel (this s) with
      | None =>
          [OpenConnectionAsync
             (<["credentials" := obj ∅]>
                (<["authModelId" := str (DBDriver.defaultAuthModel drv)]>
                   (<["dataSourceId" := str sourceId]> ∅)))]
      | Some _ => []
      end.
Proof.
  intros Hfound Hdriver Hauth Hload.
  destruct (onDBSourceSelect_auth_run svc sourceId s src drv Hfound Hdriver Hauth)
    as (s' & Hrun & _ & _ & Hloading & Hcfg & Hsettled).
  rewrite Hload in Hsettled.
  destruct Hsettled as (Hmodel & connecting & Hcalls & Hconnect).
  exists s'. split; [done|]. split; [done|]. split; [done|].
  split; [|split; [|split]].
  - pose proof (onDBSourceSelect_settle_banner
                  (dbAuthModels_load svc <$>
                     match onDBSourceSelect_begin sourceId s with
                     | Returned pending _ => pending
                     | Raised _ _ => None
                     end)
                  (state_of (onDBSourceSelect_begin sourceId s))) as Hbanner.
    unfold onDBSourceSelect, mbind, M_bind in Hrun.
    destruct (onDBSourceSelect_begin sourceId s) as [pending s1|e s1];
      [|discriminate Hrun].
    cbn [state_of] in Hbanner. by rewrite Hrun in Hbanner.
  - rewrite Hcfg. by rewrite prop_insert_ne, prop_insert_eq.
  - rewrite Hcfg. by rewrite prop_insert_eq.
  - rewrite Hcalls. by destruct (authModel (this s)); destruct Hconnect as [_ ->].
Qed.

Lemma onDBSourceSelect_auth_load_rejected_witness :
  ∃ s', onDBSourceSelect Scenario.refusing "pg1" Scenario.loaded = Returned tt s' ∧
    authModel (this s') = None ∧
    error_state s' = cleared ∧
    calls s' =
      [DatabaseAuthModels_load "basic";
       LogException (Other "Network error") "Can't load driver auth model";
       OpenConnectionAsync
         (<["credentials" := obj ∅]>
            (<["authModelId" := str "basic"]>
               (<["dataSourceId" := str "pg1"]> ∅)))].
Proof.
  destruct (onDBSourceSelect_auth_load_rejected Scenario.refusing "pg1"
              Scenario.loaded Scenario.pg1 Scenario.postgres
              (Other "Network error"))
    as (s' & Hrun & Hmodel & _ & Hbanner & _ & _ & Hcalls).
  - reflexivity.
  - vm_compute. reflexivity.
  - reflexivity.
  - reflexivity.
  - exists s'. split; [exact Hrun|]. split; [exact Hmodel|].
    split; [exact Hbanner | exact Hcalls].
Defined.

(** A fresh controller connects to "h2" as soon as it is selected. *)
Lemma onDBSourceSelect_anonymous_connects_witness :
  ∃ s', onDBSourceSelect Scenario.online "h2" Scenario.loaded = Returned tt s' ∧
    authModel (this s') = None ∧
    isConnecting (this s') = true ∧
    calls s' =
      [OpenConnectionAsync
         (<["credentials" := obj ∅]>
            (<["authModelId" := str "native"]>
               (<["dataSourceId" := str "h2"]> ∅)))].
Proof.
  destruct (onDBSourceSelect_anonymous_connects Scenario.online "h2"
              Scenario.loaded Scenario.h2 Scenario.h2_embedded)
    as (s' & Hrun & Hmodel & Hconn & Hcalls).
  - reflexivity.
  - vm_compute. reflexivity.
  - reflexivity.
  - reflexivity.
  - exists s'. split; [exact Hrun|]. split; [exact Hmodel|].
    split; [exact Hconn | exact Hcalls].
Defined.

(** X14.  Every source selection ends with a clear banner: the error of
    an earlier attempt does not outlive the selection, and a failure of
    the selection's own auth-model load does not enter it. *)
Theorem onDBSourceSelect_clears_banner
    (svc : Services) (sourceId : string) (s : Sys) :
  error_state (state_of (onDBSourceSelect svc sourceId s)) = cleared ∧
  ∀ r, error_state (state_of (onDBSourceSelect_settle r s)) = cleared.
Proof.
  split; [|intros r; apply onDBSourceSelect_settle_banner].
  unfold onDBSourceSelect, mbind, M_bind.
  destruct (onDBSourceSelect_begin_returns sourceId s) as (pending & s1 & ->).
  apply onDBSourceSelect_settle_banner.
Qed.

(** X15.  [loadAuthModel] does nothing at all when no source is
    selected, when the selected source's driver is not registered, or
    when the driver allows anonymous access.  Otherwise it makes exactly
    one call, the load of the driver's default auth model, logs its
    rejection if it is rejected, and leaves [isLoading] false. *)
Theorem loadAuthModel_noop_or_one_load (svc : Services) (s : Sys) :
  match current_driver s with
  | Some drv =>
      if DBDriver.anonymousAccess drv
      then loadAuthModel svc s = Returned tt s
      else
        ∃ s', loadAuthModel svc s = Returned tt s' ∧
          isLoading (this s') = false ∧
          match dbAuthModels_load svc (DBDriver.defaultAuthModel drv) with
          | inr loaded =>
              authModel (this s') = Some loaded ∧
              calls s' = calls s ++
                [DatabaseAuthModels_load (DBDriver.defaultAuthModel drv)]
          | inl exn =>
              authModel (this s') = authModel (this s) ∧
              calls s' = calls s ++
                [DatabaseAuthModels_load (DBDriver.defaultAuthModel drv);
                 LogException exn "Can't load driver auth model"]
          end
  | None => loadAuthModel svc s = Returned tt s
  end.
Proof.
  unfold current_driver. destruct s as [c srcs drvs log].
  unfold_methods. cbn.
  destruct (dbSource c) as [src|]; cbn; [|done].
  destruct (drvs !! DBSource.driverId src) as [drv|]; cbn; [|done].
  destruct (DBDriver.anonymousAccess drv); cbn; [done|].
  destruct (dbAuthModels_load svc _) as [exn|loaded]; cbn;
    (eexists; split; [reflexivity|]); cbn; rewrite <- ?app_assoc;
    repeat split.
Qed.

(** ** Overlapping calls *)

(** A selection that waited for a load resumes with the rest of the load,
    then goes on as one that did not wait. *)
Lemma onDBSourceSelect_settle_split
    (r : Exception + DatabaseAuthModel) (s : Sys) :
  onDBSourceSelect_settle (Some r) s =
    match loadAuthModel_settle r s with
    | Returned _ s1 => onDBSourceSelect_settle None s1
    | Raised e s1 => Raised e s1
    end.
Proof. reflexivity. Qed.

Lemma loadAuthModel_settle_loaded (loaded : DatabaseAuthModel) (s : Sys) :
  ∃ s1, loadAuthModel_settle (inr loaded) s = Returned tt s1 ∧
    authModel (this s1) = Some loaded ∧
    calls s1 = calls s.
Proof. unfold_methods. cbn. eauto. Qed.

Lemma onDBSourceSelect_settle_holding (s : Sys) (held : DatabaseAuthModel) :
  authModel (this s) = Some held →
  ∃ s', onDBSourceSelect_settle None s = Returned tt s' ∧
    authModel (this s') = Some held ∧
    calls s' = calls s.
Proof.
  intros Hheld. destruct s as [c srcs drvs log]. cbn in Hheld.
  unfold_methods. cbn.
  destruct (dbSource c) as [src|]; cbn;
    [destruct (drvs !! DBSource.driverId src); cbn|];
    rewrite Hheld; eauto.
Qed.

Lemma onDBSourceSelect_settle_loaded (loaded : DatabaseAuthModel) (s : Sys) :
  ∃ s', onDBSourceSelect_settle (Some (inr loaded)) s = Returned tt s' ∧
    authModel (this s') = Some loaded ∧
    calls s' = calls s.
Proof.
  rewrite onDBSourceSelect_settle_split.
  destruct (loadAuthModel_settle_loaded loaded s) as (s1 & -> & Hmodel & Hcalls).
  destruct (onDBSourceSelect_settle_holding s1 loaded Hmodel)
    as (s' & Hrun & Hmodel' & Hcalls').
  exists s'. split; [done|]. split; [done|]. by rewrite Hcalls'.
Qed.

Lemma onDBSourceSelect_begin_data (sourceId : string) (s : Sys) :
  templateDataSourceListResource_data
    (state_of (onDBSourceSelect_begin sourceId s)) =
    templateDataSourceListResource_data s ∧
  dbDriverResource_data (state_of (onDBSourceSelect_begin sourceId s)) =
    dbDriverResource_data s.
Proof. step_through; done. Qed.

(** X16.  A selection resumes with whatever source is current when its
    load settles.  If a second source is selected while the auth model
    of a first is still loading, the settlement of the first load stores
    the first source's auth model but writes the config for the second
    source: the model of one source ends up beside the id of another. *)
Theorem onDBSourceSelect_settles_for_the_current_source
    (first second : string) (s : Sys)
    (r : option (Exception + DatabaseAuthModel)) :
  let s2 :=
    run [OnDBSourceSelect_begin first; OnDBSourceSelect_begin second] s in
  ∃ s', onDBSourceSelect_settle r s2 = Returned tt s' ∧
    dbSource (this s') = selected second s ∧
    prop (config (this s')) "dataSourceId" =
      chain (selected second s) DBSource.id ∧
    prop (config (this s')) "authModelId" =
      chain (driver_of second s) DBDriver.defaultAuthModel ∧
    (∀ loaded, r = Some (inr loaded) →
       authModel (this s') = Some loaded ∧
       calls s' = calls s2).
Proof.
  intros s2.
  destruct (onDBSourceSelect_begin_frame first s)
    as (p1 & s1 & Hrun1 & _ & _ & _ & _ & _ & _ & _).
  assert (Hdata : templateDataSourceListResource_data s1 =
                    templateDataSourceListResource_data s ∧
                  dbDriverResource_data s1 = dbDriverResource_data s).
  { pose proof (onDBSourceSelect_begin_data first s) as Hkeep.
    by rewrite Hrun1 in Hkeep. }
  destruct Hdata as [Hsrcs Hdrvs].
  destruct (onDBSourceSelect_begin_frame second s1)
    as (p2 & s2' & Hrun2 & Hsrc & Hdrv & _).
  assert (Hs2 : s2 = s2').
  { subst s2. cbn [run fire]. unfold mbind, M_bind, mret, M_ret.
    rewrite Hrun1. cbn [state_of]. by rewrite Hrun2. }
  assert (Hsel : selected second s1 = selected second s).
  { unfold selected. by rewrite Hsrcs. }
  assert (Hdrv' : driver_of second s1 = driver_of second s).
  { unfold driver_of. by rewrite Hsel, Hdrvs. }
  destruct (onDBSourceSelect_settle_config r s2')
    as (s' & Hrun & _ & Hkept & _ & Hid & Hmodel).
  rewrite Hs2. exists s'. split; [done|].
  split; [by rewrite Hkept, Hsrc|].
  split; [by rewrite Hid, Hsrc, Hsel|].
  split; [by rewrite Hmodel, Hdrv, Hdrv'|].
  intros loaded ->.
  destruct (onDBSourceSelect_settle_loaded loaded s2')
    as (s'' & Hrun' & Hmodel' & Hcalls').
  rewrite Hrun in Hrun'. injection Hrun' as <-. done.
Qed.

(** "h2" is selected while the auth model of "pg1" is loading: when the
    load settles, the "basic" model is stored beside the id of "h2". *)
Lemma onDBSourceSelect_settles_for_the_current_source_witness :
  let s2 :=
    run [OnDBSourceSelect_begin "pg1"; OnDBSourceSelect_begin "h2"]
      Scenario.loaded in
  ∃ s', onDBSourceSelect_settle
          (Some (inr {| authModelName := "basic" |})) s2 = Returned tt s' ∧
    prop (config (this s')) "dataSourceId" = str "h2" ∧
    authModel (this s') = Some {| authModelName := "basic" |}.
Proof.
  intros s2.
  destruct (onDBSourceSelect_settles_for_the_current_source "pg1" "h2"
              Scenario.loaded (Some (inr {| authModelName := "basic" |})))
    as (s' & Hrun & _ & Hid & _ & Hloaded).
  destruct (Hloaded {| authModelName := "basic" |}) as [Hmodel _];
    [reflexivity|].
  exists s'. split; [exact Hrun|]. split; [exact Hid | exact Hmodel].
Defined.

(** ** After destruct *)

Lemma destructed_banner_fire
    (ev : Event) (s : Sys) (held : option string * bool * option GQLError.t) :
  isDistructed (this s) = true →
  error_state s = held ∨ error_state s = cleared →
  error_state (state_of (fire ev s)) = held ∨
  error_state (state_of (fire ev s)) = cleared.
Proof.
  intros Hd Hs.
  destruct (banner_fire ev s) as [Hkept|[Hclear|(Hlive & _)]].
  - by rewrite Hkept.
  - by right.
  - by rewrite Hd in Hlive.
Qed.

(** X17.  A destructed controller never puts up a new error.  From
    [destruct] on, through any history of calls and settlements, refused
    connections and failed loads included, the banner either still shows
    what it showed when [destruct] was called or has been cleared. *)
Theorem destructed_controller_shows_no_new_error
    (history : list Event) (s : Sys) :
  let s1 := run (Destruct :: history) s in
  isDistructed (this s1) = true ∧
  (error_state s1 = error_state s ∨ error_state s1 = cleared).
Proof.
  intros s1. subst s1. cbn [run].
  assert (Hd : isDistructed (this (state_of (fire Destruct s))) = true).
  { unfold fire. by unfold_methods. }
  assert (Hs : error_state (state_of (fire Destruct s)) = error_state s).
  { unfold fire. by unfold_methods. }
  split; [by apply isDistructed_run|].
  revert Hd Hs. generalize (state_of (fire Destruct s)) as s0.
  generalize (error_state s) as held.
  induction history as [|ev history IH]; intros held s0 Hd Hs; [by left|].
  cbn [run].
  assert (Hd' := isDistructed_fire ev s0 Hd).
  destruct (destructed_banner_fire ev s0 held Hd (or_introl Hs)) as [Hkeep|Hclear].
  - by apply IH.
  - destruct (IH cleared _ Hd' Hclear) as [H|H]; by right.
Qed.
